(** * yirgacheffe: lazy, row-banded raster algebra

    A shallow embedding of [yirgacheffe/operators.py]: the deferred
    operation nodes built by operator overloading, their two evaluation
    strategies (operator dispatch and element-wise "shader" dispatch), the
    chunked reductions [sum], [min], [max] and the chunked write-out [save].

    Conventions of the model.
    - Numbers are integers [Z]: the data of a raster and what is computed
      from it are integer-valued. Where the engine hands numbers to numpy or
      adds them to a Python float, the outcome depends on the dtype of the
      arrays and on binary64 rounding; those operations form the interface
      [Numpy], over which the engine is stated.
    - A raised Python exception is the [Raise] result, a returned value is
      [Ok].
    - Layers and destination sinks live in [layers.py], which is not part of
      the sources at hand; the few capabilities the engine consumes from
      them are modelled from the specification and marked as such. *)

From Stdlib Require Import ZArith Lia String List Bool QArith Qround.
From stdpp Require Import base list.
Import ListNotations.
Local Open Scope string_scope.
Local Open Scope list_scope.
Local Open Scope Z_scope.

(** ** Results and exceptions *)

Inductive exn : Type :=
| ValueError
| AttributeError
| TypeError
| IndexError.

Inductive res (A : Type) : Type :=
| Ok (a : A)
| Raise (e : exn).
Arguments Ok {A} a.
Arguments Raise {A} e.

Definition bind {A B : Type} (m : res A) (k : A -> res B) : res B :=
  match m with
  | Ok a => k a
  | Raise e => Raise e
  end.

Notation "'do' x <- m ; k" := (bind m (fun x => k))
  (at level 10, x name, m at level 100, k at level 200).

Definition is_ok {A : Type} (m : res A) : bool :=
  match m with Ok _ => true | Raise _ => false end.

(** ** Values flowing through an evaluation *)

(** What [_eval] can hand back: a bare scalar, a two-dimensional array (a
    list of rows), or Python's [NotImplemented] singleton. *)
Inductive value : Type :=
| VNum (z : Z)
| VArr (a : list (list Z))
| VNotImplemented.

(** ** What numpy and Python's floats do with numbers *)

(** The three places where the engine lets numpy or a Python float compute.
    - [np_sum chunk] is [np.sum(chunk)]: numpy adds in the dtype of the chunk,
      where integers wrap and floats round.
    - [float_add total x] is [total + x] for the float [total] of the
      reductions, which start from [0.0]: a binary64 addition.
    - [setitem operand v] is the number found in a cell after [v] was assigned
      to it, in an array allocated by [np.empty_like(operand)]: the array has
      the dtype of the operand, and numpy converts or refuses what it is given.
    [exact_numpy] below is the instance where nothing wraps and nothing is
    rounded. *)
Class Numpy : Type := mkNumpy {
  np_sum : value -> res Z;
  float_add : Z -> Z -> Z;
  setitem : value -> value -> res Z
}.

(** [yirgacheffe.window.Window] *)
Record Window : Type := mkWindow {
  xoff : Z;
  yoff : Z;
  xsize : Z;
  ysize : Z
}.

(** [range(n)] as list indices, and [range(0, n)] as row or column offsets. *)
Definition range (n : Z) : list nat := seq 0 (Z.to_nat n).

Definition zrange (n : Z) : list Z := map Z.of_nat (range n).

(** [range(start, stop, step)] for a positive [step]. *)
Fixpoint range_from (start step : Z) (count : nat) : list Z :=
  match count with
  | O => []
  | S k => start :: range_from (start + step) step k
  end.

Definition range3 (start stop step : Z) : list Z :=
  range_from start step (Z.to_nat ((stop - start + step - 1) / step)).

(** ** Layers *)

(** Modelled from the spec: the Layer capability of [layers.py] (section 6
    of the specification). A layer may expose a [window]; its
    [read_array(xoffset, yoffset, xsize, ysize)] returns an array of shape
    [(ysize, xsize)] whose cell at row [r], column [c] is the layer's pixel
    at [(yoffset + r, xoffset + c)], offsets being relative to the origin of
    the layer's current window. *)
Record Layer : Type := mkLayer {
  layer_window : option Window;
  layer_pixel : Z -> Z -> Z
}.

Definition read_array (l : Layer) (xoffset yoffset xsize ysize : Z) : value :=
  VArr (map (fun r => map (fun c => layer_pixel l (yoffset + r) (xoffset + c))
                          (zrange xsize))
            (zrange ysize)).

(** ** Operation nodes *)

(** An operator is a method name ([isinstance(raw_operator, str)]) or a
    callable taking its operands positionally. *)
Inductive operator : Type :=
| OpName (name : string)
| OpFunc (func : list value -> res value).

(** The objects an expression tree is made of. [operator] and [rhs] are
    attributes that [LayerOperation.__init__] may leave unset, hence the
    options. *)
Inductive node : Type :=
| RasterLayer (l : Layer)
| LayerConstant (val : value)
| LayerOperation (lhs : node) (op : option operator) (rhs : option node)
| ShaderStyleOperation (lhs : node) (op : option operator) (rhs : option node).

(** Objects that inherit [LayerMathMixin]: everything but [LayerConstant]. *)
Definition layer_like (n : node) : bool :=
  match n with
  | LayerConstant _ => false
  | _ => true
  end.

(** What a caller can pass as [rhs]: [None], a float or int, a numpy array of
    some shape, or any other object. *)
Inductive pyarg : Type :=
| ArgNone
| ArgNum (z : Z)
| ArgNdarray (shape : list nat) (data : list Z)
| ArgNode (n : node).

(** [ndarray.item()] *)
Definition item (data : list Z) : res Z :=
  match data with
  | [z] => Ok z
  | _ => Raise ValueError
  end.

(** Truthiness of the [operator] argument: [if operator:] *)
Definition truthy (op : option operator) : bool :=
  match op with
  | None => false
  | Some (OpName name) => negb (String.eqb name "")
  | Some (OpFunc _) => true
  end.

(** The attributes [__init__] sets, shared by [LayerOperation] and its
    subclass [ShaderStyleOperation]. *)
Definition init_attrs (op : option operator) (rhs : pyarg)
  : res (option operator * option node) :=
  let op' := if truthy op then op else None in
  match rhs with
  | ArgNone => Ok (op', None)
  | ArgNum z => Ok (op', Some (LayerConstant (VNum z)))
  | ArgNdarray shape data =>
      match shape with
      | [] => do z <- item data; Ok (op', Some (LayerConstant (VNum z)))
      | _ :: _ => Raise ValueError
      end
  | ArgNode n => Ok (op', Some n)
  end.

(** [LayerOperation.__init__] *)
Definition LayerOperation_init (lhs : node) (op : option operator) (rhs : pyarg)
  : res node :=
  do a <- init_attrs op rhs; Ok (LayerOperation lhs (fst a) (snd a)).


(** What [__init__] makes of the [rhs] argument. *)
Definition normalised_rhs (rhs : pyarg) : res (option node) :=
  match rhs with
  | ArgNone => Ok None
  | ArgNum z => Ok (Some (LayerConstant (VNum z)))
  | ArgNdarray [] [z] => Ok (Some (LayerConstant (VNum z)))
  | ArgNdarray _ _ => Raise ValueError
  | ArgNode n => Ok (Some n)
  end.

(** ** LayerMathMixin: the overloaded operators *)

(** A method of the mixin invoked on [self]; [LayerConstant] does not inherit
    the mixin, so it has no such method. *)
Definition mixin_op (name : string) (self : node) (other : pyarg) : res node :=
  if layer_like self then LayerOperation_init self (Some (OpName name)) other
  else Raise TypeError.

Definition __add__ := mixin_op "__add__".
Definition __sub__ := mixin_op "__sub__".
Definition __mul__ := mixin_op "__mul__".
Definition __truediv__ := mixin_op "__truediv__".
Definition __pow__ := mixin_op "__pow__".
Definition __eq__ := mixin_op "__eq__".
Definition __ne__ := mixin_op "__ne__".
Definition __lt__ := mixin_op "__lt__".
Definition __le__ := mixin_op "__le__".
Definition __gt__ := mixin_op "__gt__".
Definition __ge__ := mixin_op "__ge__".

Definition numpy_apply (self : node) (func : list value -> res value) (other : pyarg)
  : res node :=
  if layer_like self then LayerOperation_init self (Some (OpFunc func)) other
  else Raise AttributeError.


(** The operators the mixin overloads, each with the name it records. *)
Definition overloads : list (string * (node -> pyarg -> res node)) :=
  [ ("__add__", __add__); ("__sub__", __sub__); ("__mul__", __mul__);
    ("__truediv__", __truediv__); ("__pow__", __pow__);
    ("__eq__", __eq__); ("__ne__", __ne__); ("__lt__", __lt__);
    ("__le__", __le__); ("__gt__", __gt__); ("__ge__", __ge__) ].

(** The two sides of a composed node. *)
Definition operands (n : node) : option (node * option node) :=
  match n with
  | LayerOperation lhs _ rhs
  | ShaderStyleOperation lhs _ rhs => Some (lhs, rhs)
  | _ => None
  end.

(** ** The window of a node *)

(** [LayerOperation.window]: the lhs is asked first; only an
    [AttributeError] makes the rhs answer, and a missing [rhs] attribute is an
    [AttributeError] of its own. *)
Fixpoint window (n : node) : res Window :=
  match n with
  | RasterLayer l =>
      match layer_window l with
      | Some w => Ok w
      | None => Raise AttributeError
      end
  | LayerConstant _ => Raise AttributeError
  | LayerOperation lhs _ rhs
  | ShaderStyleOperation lhs _ rhs =>
      match window lhs with
      | Raise AttributeError =>
          match rhs with
          | Some r => window r
          | None => Raise AttributeError
          end
      | other => other
      end
  end.

(** ** Evaluation *)

(** [LayerMathMixin._eval], the evaluation of a plain layer: a band of
    [step] rows starting at row [index], as wide as the layer's window, or
    one column wide when the layer exposes no window. *)
Definition Layer_eval (l : Layer) (index step : Z) : res value :=
  match layer_window l with
  | Some w => Ok (read_array l 0 index (xsize w) step)
  | None => Ok (read_array l 0 index 1 step)
  end.

(** [result.__class__ == NotImplemented.__class__] *)
Definition is_NotImplemented (v : value) : bool :=
  match v with
  | VNotImplemented => true
  | _ => false
  end.

(** [raw_operator in ['__add__', '__mul__']] *)
Definition commutative (name : string) : bool :=
  existsb (String.eqb name) ["__add__"; "__mul__"].

(** [isinstance(v, (int, float))] *)
Definition is_scalar (v : value) : bool :=
  match v with
  | VNum _ => true
  | _ => false
  end.

(** Calling [self.operator(...)] in the shader path: a missing attribute is
    an [AttributeError], a method name (a [str]) is not callable. *)
Definition call (op : option operator) (args : list value) : res value :=
  match op with
  | None => Raise AttributeError
  | Some (OpName _) => Raise TypeError
  | Some (OpFunc func) => func args
  end.

(** A [for] loop whose body may raise: the first exception ends it. *)
Fixpoint for_each {A S : Type} (xs : list A) (body : S -> A -> res S) (s : S)
  : res S :=
  match xs with
  | [] => Ok s
  | x :: xs' => do s' <- body s x; for_each xs' body s'
  end.

(** [v[yoffset][xoffset]] with the shader's [except TypeError]: an operand
    that cannot be indexed stands for itself at every position; an index
    outside an array is an [IndexError], which nothing catches. *)
Definition operand_at (v : value) (yoffset xoffset : nat) : res value :=
  match v with
  | VArr a =>
      match a !! yoffset with
      | Some row =>
          match row !! xoffset with
          | Some c => Ok (VNum c)
          | None => Raise IndexError
          end
      | None => Raise IndexError
      end
  | _ => Ok v
  end.

(** [np.empty_like]: an array of the operand's shape. numpy leaves its
    content unspecified; the model fills it with 0. An operand that is not an
    array gives a zero-dimensional array, which has no row the element loop
    could assign to; the model has it as the array without rows. *)
Definition empty_like (v : value) : list (list Z) :=
  match v with
  | VArr a => map (map (fun _ => 0)) a
  | _ => []
  end.

Section Shader.

Context {np : Numpy}.

(** [result[yoffset][xoffset] = v], [result] being the array allocated by
    [np.empty_like(operand)]. *)
Definition store (operand : value) (result : list (list Z))
    (yoffset xoffset : nat) (v : value) : res (list (list Z)) :=
  match result !! yoffset with
  | Some row =>
      if (xoffset <? length row)%nat then
        do z <- setitem operand v;
        Ok (<[yoffset := <[xoffset := z]> row]> result)
      else Raise IndexError
  | None => Raise IndexError
  end.


(** The operator applied at one position: [self.operator(lhs_val, rhs_val)],
    or [self.operator(lhs_val)] without a rhs. *)
Definition cell_value (op : option operator) (lhs : value) (rhs : option value)
    (yoffset xoffset : nat) : res value :=
  do lhs_val <- operand_at lhs yoffset xoffset;
  match rhs with
  | Some r =>
      do rhs_val <- operand_at r yoffset xoffset;
      call op [lhs_val; rhs_val]
  | None => call op [lhs_val]
  end.

(** The body of the shader's inner loop, at one position. *)
Definition shader_cell (op : option operator) (lhs : value) (rhs : option value)
    (operand : value) (yoffset : nat) (result : list (list Z)) (xoffset : nat)
  : res (list (list Z)) :=
  do v <- cell_value op lhs rhs yoffset xoffset;
  store operand result yoffset xoffset v.

(** Whichever operand is array-valued: the one the shader's output chunk is
    shaped like, the lhs having precedence. *)
Definition array_operand (lhs : value) (rhs : option value)
  : option (list (list Z)) :=
  match lhs, rhs with
  | VArr a, _ => Some a
  | VNum _, Some (VArr b) => Some b
  | _, _ => None
  end.

(** The two nested loops of [ShaderStyleOperation._eval], filling the
    array [np.empty_like(operand)]. *)
Definition shader_fill (op : option operator) (win : res Window)
    (lhs : value) (rhs : option value) (step : Z) (operand : value)
  : res value :=
  do w <- win;
  do filled <- for_each (range step)
                 (fun res_y yoffset =>
                    for_each (range (xsize w))
                      (shader_cell op lhs rhs operand yoffset) res_y)
                 (empty_like operand);
  Ok (VArr filled).

(** [ShaderStyleOperation._eval] once both operands are evaluated ([rhs] is
    [None] when the node has none). *)
Definition shader_eval (op : option operator) (win : res Window)
    (lhs : value) (rhs : option value) (step : Z) : res value :=
  if is_scalar lhs then
    match rhs with
    | None => call op [lhs]
    | Some r =>
        if is_scalar r then call op [lhs; r]
        else shader_fill op win lhs rhs step r
    end
  else shader_fill op win lhs rhs step lhs.

End Shader.

Section Engine.

Context {np : Numpy}.

(** [getattr(v, name)] on an evaluated operand: the bound method, or
    nothing when the value has no such attribute. Which methods Python and
    numpy give to which values is left open here; [py_getattr] below is the
    instance used for concrete runs. *)
Variable getattr : value -> string -> option (list value -> res value).

(** [LayerConstant._eval], [LayerMathMixin._eval], [LayerOperation._eval]
    and [ShaderStyleOperation._eval]. *)
Fixpoint _eval (n : node) (index step : Z) : res value :=
  match n with
  | RasterLayer l => Layer_eval l index step
  | LayerConstant val => Ok val
  | LayerOperation lhs_node raw_operator raw_rhs =>
      do lhs <- _eval lhs_node index step;
      match raw_operator with
      | None => Ok lhs
      | Some (OpName name) =>
          match getattr lhs name with
          | None => Raise AttributeError
          | Some operator =>
              match raw_rhs with
              | None => operator []
              | Some rhs_node =>
                  do rhs <- _eval rhs_node index step;
                  do arg <- _eval rhs_node index step;
                  do result <- operator [arg];
                  if is_NotImplemented result && commutative name then
                    match getattr rhs name with
                    | None => Raise AttributeError
                    | Some operator' => operator' [lhs]
                    end
                  else Ok result
              end
          end
      | Some (OpFunc operator) =>
          match raw_rhs with
          | Some rhs_node =>
              do rhs <- _eval rhs_node index step;
              operator [lhs; rhs]
          | None => operator [lhs]
          end
      end
  | ShaderStyleOperation lhs_node op raw_rhs =>
      do lhs <- _eval lhs_node index step;
      do rhs <- match raw_rhs with
                | None => Ok None
                | Some rhs_node =>
                    match _eval rhs_node index step with
                    | Ok v => Ok (Some v)
                    | Raise AttributeError => Ok None
                    | Raise e => Raise e
                    end
                end;
      shader_eval op (window n) lhs rhs step
  end.

End Engine.

(** ** numpy reductions over a chunk *)

Definition zsum (xs : list Z) : Z := fold_right Z.add 0 xs.

(** The rows [lo], ..., [lo + n - 1] of a grid given row by row. *)
Definition rows_of (row : Z -> list Z) (lo n : Z) : list (list Z) :=
  map (fun r => row (lo + r)) (zrange n).

(** A node whose band of [step] rows at [index] is always those rows of one
    underlying grid: what a plain layer is, and what element-wise operators
    keep. *)
Definition row_local {np : Numpy}
    (getattr : value -> string -> option (list value -> res value))
    (n : node) (row : Z -> list Z) : Prop :=
  forall index step,
    0 <= index -> 0 <= step ->
    _eval getattr n index step = Ok (VArr (rows_of row index step)).

(** The rows of a plain layer, as wide as its window. *)
Definition layer_row (l : Layer) (w : Window) (r : Z) : list Z :=
  map (fun c => layer_pixel l r (0 + c)) (zrange (xsize w)).

(** [np.sum] without wrapping or rounding: every cell of an array, a scalar
    itself. Adding [NotImplemented] to the running total is a [TypeError]. *)
Definition exact_sum (chunk : value) : res Z :=
  match chunk with
  | VNum z => Ok z
  | VArr a => Ok (zsum (concat a))
  | VNotImplemented => Raise TypeError
  end.

(** Assignment without conversion: a number is stored as it is; an array is
    not a cell ([ValueError]), nor is [NotImplemented] ([TypeError]). *)
Definition exact_setitem (operand v : value) : res Z :=
  match v with
  | VNum z => Ok z
  | VArr _ => Raise ValueError
  | VNotImplemented => Raise TypeError
  end.

(** numpy and binary64 on numbers that every dtype involved and binary64
    hold exactly, as the small integers of the concrete runs below are. *)
Definition exact_numpy : Numpy := mkNumpy exact_sum Z.add exact_setitem.

(** [np.min] and [np.max]: an array without cells has no minimum
    ([ValueError]). *)
Definition np_min (chunk : value) : res Z :=
  match chunk with
  | VNum z => Ok z
  | VArr a =>
      match concat a with
      | [] => Raise ValueError
      | c :: cs => Ok (fold_right Z.min c cs)
      end
  | VNotImplemented => Raise TypeError
  end.

Definition np_max (chunk : value) : res Z :=
  match chunk with
  | VNum z => Ok z
  | VArr a =>
      match concat a with
      | [] => Raise ValueError
      | c :: cs => Ok (fold_right Z.max c cs)
      end
  | VNotImplemented => Raise TypeError
  end.

(** [np.full((rows, cols), z)] *)
Definition np_full (rows cols : Z) (z : Z) : res value :=
  if (rows <? 0) || (cols <? 0) then Raise ValueError
  else Ok (VArr (repeat (repeat z (Z.to_nat cols)) (Z.to_nat rows))).

(** ** The destination of [save] *)

(** Modelled from the spec: the destination sink of [layers.py] (section 6
    of the specification). It may expose a raster band
    ([_dataset.GetRasterBand(1)]) and a [window]; the band's write primitive
    [WriteArray(chunk, xoffset, yoffset)] stores the chunk at that offset. The
    band is the sequence of writes it has received, oldest first. *)
Record Destination : Type := mkDestination {
  has_raster_band : bool;
  destination_window : option Window
}.

Definition raster_band : Type := list (list (list Z) * Z * Z).

(** Code that may raise and writes to the band: the band is threaded through,
    and stays as it is when an exception ends the run. *)
Definition io (A : Type) : Type := raster_band -> res A * raster_band.

Definition io_ret {A : Type} (a : A) : io A := fun band => (Ok a, band).

Definition io_lift {A : Type} (m : res A) : io A := fun band => (m, band).

Definition io_bind {A B : Type} (m : io A) (k : A -> io B) : io B :=
  fun band =>
    match m band with
    | (Ok a, band') => k a band'
    | (Raise e, band') => (Raise e, band')
    end.

Notation "'io!' x <- m ; k" := (io_bind m (fun x => k))
  (at level 10, x name, m at level 100, k at level 200).

Definition WriteArray (chunk : value) (xoffset yoffset : Z) : io unit :=
  fun band =>
    match chunk with
    | VArr a => (Ok tt, band ++ [(a, xoffset, yoffset)])
    | _ => (Raise TypeError, band)
    end.

Fixpoint io_for_each {A S : Type} (xs : list A) (body : S -> A -> io S) (s : S)
  : io S :=
  match xs with
  | [] => io_ret s
  | x :: xs' => io! s' <- body s x; io_for_each xs' body s'
  end.

(** ** Chunked terminal operations *)

(** The module constant [YSTEP]. *)
Definition YSTEP : Z := 512.

Module Terminal.
Section Terminal.

Context {np : Numpy}.

Variable getattr : value -> string -> option (list value -> res value).

(** The band height, [YSTEP] in the source. *)
Variable ystep : Z.

(** The height of the band starting at [yoffset]: the last one is clipped
    to the rows that remain. *)
Definition band_height (computation_window : Window) (yoffset : Z) : Z :=
  if yoffset + ystep >? ysize computation_window
  then ysize computation_window - yoffset
  else ystep.

(** [LayerOperation.sum] *)
Definition sum (self : node) : res Z :=
  do computation_window <- window self;
  for_each (range3 0 (ysize computation_window) ystep)
    (fun total yoffset =>
       let step := band_height computation_window yoffset in
       do chunk <- _eval getattr self yoffset step;
       do s <- np_sum chunk;
       Ok (float_add total s))
    0.

(** [LayerOperation.min] *)
Definition min (self : node) : res Z :=
  do computation_window <- window self;
  for_each (range3 0 (ysize computation_window) ystep)
    (fun total yoffset =>
       let step := band_height computation_window yoffset in
       do chunk <- _eval getattr self yoffset step;
       do m <- np_min chunk;
       Ok (float_add total m))
    0.

(** [LayerOperation.max] *)
Definition max (self : node) : res Z :=
  do computation_window <- window self;
  for_each (range3 0 (ysize computation_window) ystep)
    (fun total yoffset =>
       let step := band_height computation_window yoffset in
       do chunk <- _eval getattr self yoffset step;
       do m <- np_max chunk;
       Ok (float_add total m))
    0.

(** The body of the chunk loop of [save]. *)
Definition save_band (self : node) (computation_window destination_window : Window)
    (and_sum : bool) (total : Z) (yoffset : Z) : io Z :=
  let step := band_height computation_window yoffset in
  io! chunk <- io_lift (_eval getattr self yoffset step);
  io! chunk <- io_lift (match chunk with
                        | VNum z => np_full step (xsize destination_window) z
                        | _ => Ok chunk
                        end);
  io! _u <- WriteArray chunk (xoff destination_window)
                             (yoffset + yoff destination_window);
  if and_sum then io! s <- io_lift (np_sum chunk); io_ret (float_add total s)
  else io_ret total.

(** [LayerOperation.save]; the result is [None] unless [and_sum]. *)
Definition save (self : node) (destination_layer : option Destination)
    (and_sum : bool) : io (option Z) :=
  match destination_layer with
  | None => io_lift (Raise ValueError)
  | Some destination =>
      if negb (has_raster_band destination) then io_lift (Raise ValueError)
      else
        io! computation_window <- io_lift (window self);
        io! destination_window <-
          io_lift (match destination_window destination with
                   | Some w => Ok w
                   | None => Raise AttributeError
                   end);
        if negb (xsize computation_window =? xsize destination_window)
           || negb (ysize computation_window =? ysize destination_window)
        then io_lift (Raise ValueError)
        else
          io! total <- io_for_each (range3 0 (ysize computation_window) ystep)
                         (save_band self computation_window destination_window and_sum)
                         0;
          io_ret (if and_sum then Some total else None)
  end.

(** [LayerMathMixin.sum], [min], [max] and [save], the entry points of a
    plain layer: the layer is wrapped in a node without operator first. *)
Definition LayerMathMixin_sum (self : node) : res Z :=
  sum (LayerOperation self None None).

Definition LayerMathMixin_min (self : node) : res Z :=
  min (LayerOperation self None None).

Definition LayerMathMixin_max (self : node) : res Z :=
  max (LayerOperation self None None).

Definition LayerMathMixin_save (self : node) (destination_layer : option Destination)
    (and_sum : bool) : io (option Z) :=
  save (LayerOperation self None None) destination_layer and_sum.

End Terminal.
End Terminal.

(** ** Method lookup on evaluated operands *)

(** The engine is stated over any [getattr]. The table below serves the
    concrete runs: integers small enough that no dtype wraps, and the
    operators whose result on integers is an integer. *)

(** The named operators whose result on integers is an integer: the
    arithmetic ones but [__truediv__] and [__pow__], whose results are floats
    in general, and the comparisons, with [True] as 1 and [False] as 0. *)
Definition binary_ops : list (string * (Z -> Z -> Z)) :=
  [ ("__add__", Z.add);
    ("__sub__", Z.sub);
    ("__mul__", Z.mul);
    ("__eq__", fun a b => Z.b2z (a =? b));
    ("__ne__", fun a b => Z.b2z (negb (a =? b)));
    ("__lt__", fun a b => Z.b2z (a <? b));
    ("__le__", fun a b => Z.b2z (a <=? b));
    ("__gt__", fun a b => Z.b2z (a >? b));
    ("__ge__", fun a b => Z.b2z (a >=? b)) ].

Definition binary_op (name : string) : option (Z -> Z -> Z) :=
  option_map snd (find (fun p => String.eqb (fst p) name) binary_ops).

Definition shape (a : list (list Z)) : list nat := map (@length Z) a.

(** A method of a Python number: it declines anything that is not a number,
    an array included, by returning [NotImplemented]. *)
Definition scalar_method (f : Z -> Z -> Z) (self : Z) (args : list value)
  : res value :=
  match args with
  | [VNum other] => Ok (VNum (f self other))
  | [_] => Ok VNotImplemented
  | _ => Raise TypeError
  end.

(** A method of a numpy array, without wrapping: a number is applied to
    every cell, an array of the same shape cell by cell. Broadcasting between
    arrays of different shapes is not modelled and shows as the [ValueError]
    numpy raises for shapes it cannot broadcast. *)
Definition array_method (f : Z -> Z -> Z) (self : list (list Z)) (args : list value)
  : res value :=
  match args with
  | [VNum other] => Ok (VArr (map (map (fun c => f c other)) self))
  | [VArr other] =>
      if decide (shape self = shape other)
      then Ok (VArr (zip_with (zip_with f) self other))
      else Raise ValueError
  | _ => Raise TypeError
  end.

(** [getattr] as Python's numbers and numpy's arrays answer it, on the
    operators of [binary_ops]. [NotImplemented] has none of them as far as
    the arithmetic goes; its inherited comparisons are left out. *)
Definition py_getattr (v : value) (name : string)
  : option (list value -> res value) :=
  match binary_op name with
  | Some f =>
      match v with
      | VNum z => Some (scalar_method f z)
      | VArr a => Some (array_method f a)
      | VNotImplemented => None
      end
  | None => None
  end.

(** ** Operands position by position, and exact arithmetic *)





(** The sum of the absolute values of the cells of an array: no partial sum
    of its cells, in whatever order, is larger. *)
Definition magnitude (a : list (list Z)) : Z := zsum (map Z.abs (concat a)).

(** [np.sum] is exact on arrays of magnitude up to [bound], as it is below
    2^24 for every dtype a raster can have. *)
Definition sums_exactly {np : Numpy} (bound : Z) : Prop :=
  forall a, magnitude a <= bound -> np_sum (VArr a) = Ok (zsum (concat a)).

(** The float addition is exact when both numbers and their sum are within
    [bound], as binary64 is up to 2^53. *)
Definition adds_exactly {np : Numpy} (bound : Z) : Prop :=
  forall x y,
    Z.abs x <= bound -> Z.abs y <= bound -> Z.abs (x + y) <= bound ->
    float_add x y = x + y.

(** ** The Group compositor's constructor *)

(** Modelled from the spec: [PixelScale] of [window.py] and the constructor
    of [GroupLayer] of [layers.py] (sections 3 and 4.3 of the specification);
    only the tests of the group are among the sources. A scale is a pair of
    world units per pixel. The constructor refuses an empty collection of
    children, and refuses children whose scales, once normalised in sign and
    precision, are not all the same; both refusals are the [ValueError] the
    tests expect. *)
Record PixelScale : Type := mkPixelScale {
  xstep : Q;
  ystep : Q
}.

Record ScaledLayer : Type := mkScaledLayer {
  base_layer : Layer;
  pixel_scale : PixelScale
}.

Record GroupLayer : Type := mkGroupLayer {
  group_layers : list ScaledLayer
}.

Section Group.

(** The normalisation of one component of a scale; the specification names
    it without fixing the precision. *)
Variable normalise : Q -> Z.

Definition normalised (s : PixelScale) : Z * Z :=
  (normalise (xstep s), normalise (ystep s)).

Definition same_scale (a b : ScaledLayer) : bool :=
  bool_decide (normalised (pixel_scale a) = normalised (pixel_scale b)).

Definition GroupLayer_init (layers : list ScaledLayer) : res GroupLayer :=
  match layers with
  | [] => Raise ValueError
  | first :: rest =>
      if forallb (same_scale first) rest
      then Ok (mkGroupLayer layers)
      else Raise ValueError
  end.

End Group.

(** Sign dropped, six decimal places kept. *)
Definition micro_units (q : Q) : Z := Z.abs (Qfloor (q * 1000000 + (1 # 2))%Q).

(** ** Lengths, leaves and the writes of a save *)

Section Len.

(** What [len] answers on a plain layer; [layers.py] decides it. *)
Variable layer_len : Layer -> res Z.

(** [LayerOperation.__len__]: [len(self.lhs)]. A [LayerConstant] has no
    [__len__], and [len] of it is a [TypeError]. *)
Fixpoint __len__ (n : node) : res Z :=
  match n with
  | RasterLayer l => layer_len l
  | LayerConstant _ => Raise TypeError
  | LayerOperation lhs _ _
  | ShaderStyleOperation lhs _ _ => __len__ lhs
  end.

End Len.

(** The leaf reached by following [lhs] all the way down. *)
Fixpoint leftmost (n : node) : node :=
  match n with
  | LayerOperation lhs _ _
  | ShaderStyleOperation lhs _ _ => leftmost lhs
  | _ => n
  end.

(** The leaves of an expression, from left to right. *)
Fixpoint leaves (n : node) : list node :=
  match n with
  | LayerOperation lhs _ rhs
  | ShaderStyleOperation lhs _ rhs =>
      leaves lhs ++ match rhs with
                    | Some r => leaves r
                    | None => []
                    end
  | _ => [n]
  end.

(** The window a leaf exposes, if any. *)
Definition leaf_window (n : node) : option Window :=
  match n with
  | RasterLayer l => layer_window l
  | _ => None
  end.

(** One [WriteArray] per band of a grid given row by row, at the
    destination's offsets. *)
Definition band_writes (ystep : Z) (row : Z -> list Z)
    (computation_window destination_window' : Window) : raster_band :=
  map (fun yoffset =>
         (rows_of row yoffset (Terminal.band_height ystep computation_window yoffset),
          xoff destination_window', yoffset + yoff destination_window'))
      (range3 0 (ysize computation_window) ystep).

Section Written.

Context {np : Numpy}.
Variable getattr : value -> string -> option (list value -> res value).
Variable ystep : Z.
Variable self : node.
Variable computation_window destination_window' : Window.
Variable and_sum : bool.

(** The chunk the band at [yoffset] hands to [WriteArray], when the chunk
    loop gets that far: the evaluated band, a scalar being spread first. *)
Definition band_chunk (yoffset : Z) : option (list (list Z)) :=
  match _eval getattr self yoffset
          (Terminal.band_height ystep computation_window yoffset) with
  | Ok (VArr a) => Some a
  | Ok (VNum z) =>
      match np_full (Terminal.band_height ystep computation_window yoffset)
              (xsize destination_window') z with
      | Ok (VArr a) => Some a
      | _ => None
      end
  | _ => None
  end.

(** The iteration of the band at [yoffset] runs to its end: there is a chunk
    to write and, with [and_sum], numpy sums it. *)
Definition completes (yoffset : Z) : bool :=
  match band_chunk yoffset with
  | Some a => negb and_sum || is_ok (np_sum (VArr a))
  | None => false
  end.

(** The writes of a chunk loop over the bands [yoffsets]: one per band, in
    order, up to and including the band whose iteration does not run to its
    end, if that band got as far as its write. *)
Fixpoint written (yoffsets : list Z) : raster_band :=
  match yoffsets with
  | [] => []
  | yoffset :: rest =>
      match band_chunk yoffset with
      | Some a =>
          (a, xoff destination_window', yoffset + yoff destination_window')
          :: (if completes yoffset then written rest else [])
      | None => []
      end
  end.

End Written.

(** One [WriteArray] per band of the scalar [z] spread over the band. *)
Definition scalar_writes (ystep z : Z)
    (computation_window destination_window' : Window) : raster_band :=
  map (fun yoffset =>
         (repeat (repeat z (Z.to_nat (xsize destination_window')))
                 (Z.to_nat (Terminal.band_height ystep computation_window yoffset)),
          xoff destination_window', yoffset + yoff destination_window'))
      (range3 0 (ysize computation_window) ystep).

(** ** Concrete layers and expressions *)

(** A layer of [rows] by [cols] pixels, all of value [z]. *)
Definition constant_raster (rows cols z : Z) : Layer :=
  mkLayer (Some (mkWindow 0 0 cols rows)) (fun _ _ => z).

(** A layer whose pixel at row [r], column [c] is [10 * r + c]. *)
Definition ramp_raster (rows cols : Z) : Layer :=
  mkLayer (Some (mkWindow 0 0 cols rows)) (fun r c => 10 * r + c).

(** A layer that exposes no window. *)
Definition windowless : Layer := mkLayer None (fun _ _ => 0).

(** [layer.numpy_apply(lambda chunk: 1.0)]: every band evaluates to the bare
    scalar 1. *)
Definition always_one (l : Layer) : node :=
  LayerOperation (RasterLayer l) (Some (OpFunc (fun _ => Ok (VNum 1)))) None.

(** [layer.numpy_apply(lambda chunk: 0.0) - layer]: a Python float on the
    left of a subtraction, an array on the right. *)
Definition zero_minus (l : Layer) : node :=
  LayerOperation
    (LayerOperation (RasterLayer l) (Some (OpFunc (fun _ => Ok (VNum 0)))) None)
    (Some (OpName "__sub__"))
    (Some (RasterLayer l)).

(** A writable destination of [rows] by [cols] pixels. *)
Definition writable (rows cols : Z) : Destination :=
  mkDestination true (Some (mkWindow 0 0 cols rows)).


(** A per-chunk function that refuses any chunk whose first cell is 10 or
    more, and returns the others as they are. *)
Definition below_ten : list value -> res value :=
  fun args =>
    match args with
    | [VArr ((c :: row) :: rows)] =>
        if c <? 10 then Ok (VArr ((c :: row) :: rows)) else Raise ValueError
    | _ => Raise TypeError
    end.

(** A per-element function that doubles its one operand, or multiplies its
    two. *)
Definition double_or_times : list value -> res value :=
  fun args =>
    match args with
    | [VNum a] => Ok (VNum (2 * a))
    | [VNum a; VNum b] => Ok (VNum (a * b))
    | _ => Raise TypeError
    end.

(** * Properties *)

Section General.

Context {np : Numpy}.

(** ** Windows *)

(** Querying a window can only fail with [AttributeError]. *)
Lemma window_raises (n : node) (e : exn) :
  window n = Raise e -> e = AttributeError.
Proof.
  revert n e. fix IH 1. intros n e.
  destruct n as [l | val | lhs op rhs | lhs op rhs]; simpl.
  - destruct (layer_window l); congruence.
  - congruence.
  - destruct (window lhs) as [w | e'] eqn:Hl; [congruence |].
    apply IH in Hl. subst e'.
    destruct rhs as [r |]; [apply IH | congruence].
  - destruct (window lhs) as [w | e'] eqn:Hl; [congruence |].
    apply IH in Hl. subst e'.
    destruct rhs as [r |]; [apply IH | congruence].
Qed.

Lemma window_not_ok (n : node) :
  is_ok (window n) = false -> window n = Raise AttributeError.
Proof.
  destruct (window n) as [w | e] eqn:H; simpl; [discriminate |].
  intros _. f_equal. eapply window_raises; eassumption.
Qed.

Lemma window_composed (n lhs : node) (rhs : option node) :
  operands n = Some (lhs, rhs) ->
  window n =
    match window lhs with
    | Ok w => Ok w
    | Raise _ =>
        match rhs with
        | Some r => window r
        | None => Raise AttributeError
        end
    end.
Proof.
  intros H.
  destruct n as [l | val | lhs' op rhs' | lhs' op rhs']; simpl in H;
    try discriminate; injection H as -> ->; simpl;
    (destruct (window lhs) as [w | e] eqn:Hl; [reflexivity |]);
    apply window_raises in Hl; subst e; reflexivity.
Qed.

Section TerminalFacts.

Variable getattr : value -> string -> option (list value -> res value).
Variable ystep : Z.

Lemma no_window_no_save (self : node) (destination_layer : option Destination)
    (and_sum : bool) (band : raster_band) :
  is_ok (window self) = false ->
  exists e, Terminal.save getattr ystep self destination_layer and_sum band
            = (Raise e, band).
Proof.
  intros H. apply window_not_ok in H. unfold Terminal.save.
  destruct destination_layer as [d |]; [| by eexists].
  destruct (has_raster_band d); simpl; [| by eexists].
  unfold io_bind, io_lift. rewrite H. by eexists.
Qed.

(** C5: the window of a composed node is the lhs's when the lhs exposes
    one, otherwise the rhs's; when neither side exposes a window the query
    fails, and so do [sum], [min], [max] and [save], the latter without
    touching the destination. *)
Theorem window_of_composed_node (n lhs : node) (rhs : option node) :
  operands n = Some (lhs, rhs) ->
  (forall w, window lhs = Ok w -> window n = Ok w) /\
  (is_ok (window lhs) = false ->
     window n = match rhs with
                | Some r => window r
                | None => Raise AttributeError
                end) /\
  (is_ok (window lhs) = false ->
   (forall r, rhs = Some r -> is_ok (window r) = false) ->
     window n = Raise AttributeError /\
     Terminal.sum getattr ystep n = Raise AttributeError /\
     Terminal.min getattr ystep n = Raise AttributeError /\
     Terminal.max getattr ystep n = Raise AttributeError /\
     forall destination_layer and_sum band,
       exists e, Terminal.save getattr ystep n destination_layer and_sum band
                 = (Raise e, band)).
Proof.
  intros Hn. pose proof (window_composed n lhs rhs Hn) as Hw.
  split; [| split].
  - intros w Hl. by rewrite Hw, Hl.
  - intros Hl. rewrite Hw. by destruct (window lhs).
  - intros Hl Hr.
    assert (Hfail : window n = Raise AttributeError).
    { rewrite Hw. destruct (window lhs); [discriminate |].
      destruct rhs as [r |]; [| reflexivity].
      apply window_not_ok. by apply Hr. }
    split; [exact Hfail |].
    unfold Terminal.sum, Terminal.min, Terminal.max. rewrite Hfail. simpl.
    repeat split. intros d s b. apply no_window_no_save. by rewrite Hfail.
Qed.

Lemma range3_empty (stop : Z) : 0 < ystep -> stop <= 0 -> range3 0 stop ystep = [].
Proof.
  intros Hs Hz. unfold range3.
  assert (H : (stop - 0 + ystep - 1) / ystep < 1)
    by (apply Z.div_lt_upper_bound; lia).
  replace (Z.to_nat ((stop - 0 + ystep - 1) / ystep)) with O by lia.
  reflexivity.
Qed.

(** C9: over a window of zero rows the band loop runs no iteration, and
    [sum], [min] and [max] all return the initial accumulator 0.0; [min]
    and [max] neither raise nor return an infinity. *)
Theorem empty_window_reductions (self : node) (w : Window) :
  0 < ystep ->
  window self = Ok w ->
  ysize w = 0 ->
  Terminal.sum getattr ystep self = Ok 0 /\
  Terminal.min getattr ystep self = Ok 0 /\
  Terminal.max getattr ystep self = Ok 0.
Proof.
  intros Hs Hw Hy. unfold Terminal.sum, Terminal.min, Terminal.max.
  rewrite Hw. simpl. rewrite Hy, range3_empty by lia. by simpl.
Qed.

(** C4: [save] checks its preconditions before the chunk loop. A
    destination without a raster band, or one whose window differs in
    [xsize] or [ysize] from the computation's, makes it raise a
    [ValueError] with the band exactly as it was. *)
Theorem save_fails_before_writing (self : node) (destination : Destination)
    (and_sum : bool) (band : raster_band) :
  (has_raster_band destination = false ->
     Terminal.save getattr ystep self (Some destination) and_sum band
     = (Raise ValueError, band)) /\
  (forall computation_window destination_window',
     window self = Ok computation_window ->
     destination_window destination = Some destination_window' ->
     xsize computation_window <> xsize destination_window' \/
     ysize computation_window <> ysize destination_window' ->
     Terminal.save getattr ystep self (Some destination) and_sum band
     = (Raise ValueError, band)).
Proof.
  split.
  - intros Hb. unfold Terminal.save. by rewrite Hb.
  - intros cw dw Hcw Hdw Hne. unfold Terminal.save.
    destruct (has_raster_band destination); simpl; [| reflexivity].
    unfold io_bind, io_lift. rewrite Hcw, Hdw.
    destruct (negb (xsize cw =? xsize dw) || negb (ysize cw =? ysize dw))
      eqn:Hsz; [reflexivity |].
    apply orb_false_elim in Hsz as [Hx Hy].
    apply negb_false_iff, Z.eqb_eq in Hx. apply negb_false_iff, Z.eqb_eq in Hy.
    lia.
Qed.

End TerminalFacts.

(** ** Construction *)

Lemma mixin_op_builds (name : string) (self : node) (other : pyarg) :
  name <> "" ->
  layer_like self = true ->
  mixin_op name self other =
    do rhs <- normalised_rhs other;
    Ok (LayerOperation self (Some (OpName name)) rhs).
Proof.
  intros Hname Hself. unfold mixin_op, LayerOperation_init, init_attrs.
  rewrite Hself. simpl.
  replace (String.eqb name "") with false
    by (symmetry; by apply String.eqb_neq).
  simpl.
  destruct other as [| z | sh data | n]; simpl; try reflexivity.
  destruct sh as [| d sh]; [| reflexivity].
  destruct data as [| z [| z' data]]; reflexivity.
Qed.

Lemma overloads_are_mixin_ops (name : string) (method : node -> pyarg -> res node) :
  In (name, method) overloads -> name <> "" /\ method = mixin_op name.
Proof.
  unfold overloads. simpl. intros Hin.
  repeat (destruct Hin as [Hin | Hin];
          [injection Hin as <- <-; split; [discriminate | reflexivity] |]).
  destruct Hin.
Qed.

(** C6: an overloaded arithmetic or comparison operator on a Layer-like
    object only builds a node: the lhs is stored as it is and the operator's
    name recorded; a number or a zero-dimensional array on the right becomes
    a [LayerConstant] holding the scalar, any other array shape is a
    [ValueError] at construction. Construction takes no data source and no
    method lookup, so nothing is read or computed. *)
Theorem operators_build_nodes (name : string) (method : node -> pyarg -> res node)
    (self : node) :
  In (name, method) overloads ->
  layer_like self = true ->
  method self ArgNone = Ok (LayerOperation self (Some (OpName name)) None) /\
  (forall rhs,
     method self (ArgNode rhs) = Ok (LayerOperation self (Some (OpName name)) (Some rhs))) /\
  (forall z,
     method self (ArgNum z)
     = Ok (LayerOperation self (Some (OpName name)) (Some (LayerConstant (VNum z))))) /\
  (forall z,
     method self (ArgNdarray [] [z])
     = Ok (LayerOperation self (Some (OpName name)) (Some (LayerConstant (VNum z))))) /\
  (forall d shape data,
     method self (ArgNdarray (d :: shape) data) = Raise ValueError).
Proof.
  intros Hin Hself.
  destruct (overloads_are_mixin_ops name method Hin) as [Hname ->].
  repeat split; intros; by rewrite mixin_op_builds.
Qed.

(** C10: comparing two Layer-like objects yields no boolean: each of the six
    comparisons returns a new node that records the comparison and its two
    sides. *)
Theorem comparisons_build_nodes (a b : node) :
  layer_like a = true ->
  layer_like b = true ->
  __eq__ a (ArgNode b) = Ok (LayerOperation a (Some (OpName "__eq__")) (Some b)) /\
  __ne__ a (ArgNode b) = Ok (LayerOperation a (Some (OpName "__ne__")) (Some b)) /\
  __lt__ a (ArgNode b) = Ok (LayerOperation a (Some (OpName "__lt__")) (Some b)) /\
  __le__ a (ArgNode b) = Ok (LayerOperation a (Some (OpName "__le__")) (Some b)) /\
  __gt__ a (ArgNode b) = Ok (LayerOperation a (Some (OpName "__gt__")) (Some b)) /\
  __ge__ a (ArgNode b) = Ok (LayerOperation a (Some (OpName "__ge__")) (Some b)).
Proof.
  intros Ha _.
  repeat split; unfold __eq__, __ne__, __lt__, __le__, __gt__, __ge__;
    (rewrite mixin_op_builds by (discriminate || assumption); reflexivity).
Qed.

(** ** Operator dispatch *)

Lemma commutative_spec (name : string) :
  commutative name = true <-> name = "__add__" \/ name = "__mul__".
Proof.
  unfold commutative. simpl. rewrite !orb_true_iff, !String.eqb_eq.
  intuition discriminate.
Qed.

(** C3, as the code has it: when the lhs's method declines with
    [NotImplemented], [__add__] and [__mul__] are retried as the rhs's method
    applied to the lhs, and the retry's outcome is the result; for every other
    operator the [NotImplemented] value itself is the result of [_eval], and
    no error is raised there. *)
Theorem declined_dispatch (getattr : value -> string -> option (list value -> res value))
    (lhs_node rhs_node : node) (name : string) (index step : Z)
    (lhs rhs : value) (operator : list value -> res value) :
  _eval getattr lhs_node index step = Ok lhs ->
  _eval getattr rhs_node index step = Ok rhs ->
  getattr lhs name = Some operator ->
  operator [rhs] = Ok VNotImplemented ->
  (name = "__add__" \/ name = "__mul__" ->
     _eval getattr (LayerOperation lhs_node (Some (OpName name)) (Some rhs_node)) index step
     = match getattr rhs name with
       | Some operator' => operator' [lhs]
       | None => Raise AttributeError
       end) /\
  (name <> "__add__" -> name <> "__mul__" ->
     _eval getattr (LayerOperation lhs_node (Some (OpName name)) (Some rhs_node)) index step
     = Ok VNotImplemented).
Proof.
  intros Hl Hr Hm Hdecl. split.
  - intros Hc. apply commutative_spec in Hc. simpl.
    rewrite Hl. simpl. rewrite Hm, Hr. simpl. rewrite Hdecl. simpl.
    by rewrite Hc.
  - intros Ha Hmul. simpl.
    rewrite Hl. simpl. rewrite Hm, Hr. simpl. rewrite Hdecl. simpl.
    destruct (commutative name) eqn:Hc; [| reflexivity].
    apply commutative_spec in Hc. tauto.
Qed.

(** ** Group construction *)

Lemma same_scale_spec (normalise : Q -> Z) (a b : ScaledLayer) :
  same_scale normalise a b = true <->
  normalised normalise (pixel_scale a) = normalised normalise (pixel_scale b).
Proof. unfold same_scale. apply bool_decide_eq_true. Qed.

(** C8: a Group cannot be built from no children, nor from children whose
    normalised pixel scales differ; either attempt raises and no compositor
    is produced. *)
Theorem group_construction_fails (normalise : Q -> Z) :
  GroupLayer_init normalise [] = Raise ValueError /\
  (forall (layers : list ScaledLayer) (a b : ScaledLayer),
     In a layers -> In b layers ->
     normalised normalise (pixel_scale a) <> normalised normalise (pixel_scale b) ->
     GroupLayer_init normalise layers = Raise ValueError).
Proof.
  split; [reflexivity |].
  intros layers a b Ha Hb Hne.
  destruct layers as [| first rest]; [destruct Ha |].
  simpl. destruct (forallb (same_scale normalise first) rest) eqn:Hall;
    [| reflexivity].
  exfalso. apply Hne.
  rewrite forallb_forall in Hall.
  assert (Hfirst : forall c, In c (first :: rest) ->
            normalised normalise (pixel_scale first)
            = normalised normalise (pixel_scale c)).
  { intros c [<- | Hc]; [reflexivity |]. by apply same_scale_spec, Hall. }
  by rewrite <- (Hfirst a Ha), <- (Hfirst b Hb).
Qed.

(** ** Shader evaluation *)

Section ListFill.

Context {A : Type}.



End ListFill.

Section ShaderFill.

Variable op : option operator.
Variable lhs : value.
Variable rhs : option value.
Variable operand : value.
Variable f : nat -> nat -> Z.
Variable cols : nat.




End ShaderFill.









(** ** Chunked reductions *)

Lemma zsum_app (xs ys : list Z) : zsum (xs ++ ys) = zsum xs + zsum ys.
Proof. induction xs as [| x xs IH]; simpl; lia. Qed.

Lemma zrange_nonpos (n : Z) : n <= 0 -> zrange n = [].
Proof.
  intros Hn. unfold zrange, range. by replace (Z.to_nat n) with O by lia.
Qed.

Lemma zrange_add (a b : Z) :
  0 <= a -> 0 <= b ->
  zrange (a + b) = zrange a ++ map (fun r => a + r) (zrange b).
Proof.
  intros Ha Hb. unfold zrange, range.
  rewrite Z2Nat.inj_add, seq_app, map_app by lia. f_equal.
  simpl. rewrite <- (Nat.add_0_r (Z.to_nat a)) at 1.
  generalize 0%nat as k. generalize (Z.to_nat b) as n.
  induction n as [| n IH]; intros k; simpl; [reflexivity |].
  f_equal; [lia |].
  rewrite <- IH. f_equal. f_equal. lia.
Qed.

Lemma rows_of_add (row : Z -> list Z) (lo a b : Z) :
  0 <= a -> 0 <= b ->
  rows_of row lo (a + b) = rows_of row lo a ++ rows_of row (lo + a) b.
Proof.
  intros Ha Hb. unfold rows_of. rewrite zrange_add, map_app, map_map by lia.
  f_equal. apply map_ext. intros r. f_equal. lia.
Qed.

Lemma rows_sum_add (row : Z -> list Z) (lo a b : Z) :
  0 <= a -> 0 <= b ->
  zsum (concat (rows_of row lo (a + b)))
  = zsum (concat (rows_of row lo a)) + zsum (concat (rows_of row (lo + a) b)).
Proof.
  intros Ha Hb. by rewrite rows_of_add, concat_app, zsum_app.
Qed.

Lemma layer_is_row_local getattr (l : Layer) (w : Window) :
  layer_window l = Some w ->
  row_local getattr (RasterLayer l) (layer_row l w).
Proof.
  intros Hw index step _ _. simpl. unfold Layer_eval. by rewrite Hw.
Qed.

Lemma rows_of_map (g : list Z -> list Z) (row : Z -> list Z) (lo n : Z) :
  rows_of (fun r => g (row r)) lo n = map g (rows_of row lo n).
Proof. unfold rows_of. by rewrite map_map. Qed.

(** *** Magnitudes *)

Lemma magnitude_nonneg (a : list (list Z)) : 0 <= magnitude a.
Proof.
  unfold magnitude. induction (concat a) as [| c cs IH]; simpl; lia.
Qed.

Lemma zsum_le_magnitude (a : list (list Z)) :
  Z.abs (zsum (concat a)) <= magnitude a.
Proof.
  unfold magnitude. induction (concat a) as [| c cs IH]; simpl; lia.
Qed.

Lemma magnitude_app (a b : list (list Z)) :
  magnitude (a ++ b) = magnitude a + magnitude b.
Proof.
  unfold magnitude. by rewrite concat_app, map_app, zsum_app.
Qed.

Section Bands.

Variable getattr : value -> string -> option (list value -> res value).
Variable ystep : Z.
Hypothesis ystep_pos : 0 < ystep.

(** The number of bands left from row [start] on. *)
Lemma bands_left_zero (height start : Z) :
  Z.to_nat ((height - start + ystep - 1) / ystep) = O -> height - start <= 0.
Proof using ystep_pos.
  intros Hq.
  destruct (Z_le_gt_dec (height - start) 0) as [Hle | Hgt]; [exact Hle |].
  assert (1 <= (height - start + ystep - 1) / ystep)
    by (apply Z.div_le_lower_bound; lia).
  lia.
Qed.

Lemma bands_left_succ (height start : Z) (c : nat) :
  Z.to_nat ((height - start + ystep - 1) / ystep) = S c ->
  1 <= height - start /\
  Z.to_nat ((height - (start + ystep) + ystep - 1) / ystep) = c.
Proof using ystep_pos.
  intros Hq. split.
  - destruct (Z_le_gt_dec 1 (height - start)) as [Hle | Hgt]; [exact Hle |].
    assert ((height - start + ystep - 1) / ystep < 1)
      by (apply Z.div_lt_upper_bound; lia).
    lia.
  - replace (height - (start + ystep) + ystep - 1)
      with (height - start + ystep - 1 + (-1) * ystep) by lia.
    rewrite Z.div_add by lia. lia.
Qed.

Variable computation_window : Window.

(** The height of a band that starts inside the window. *)
Lemma band_height_inside (start : Z) :
  1 <= ysize computation_window - start ->
  1 <= Terminal.band_height ystep computation_window start <= ystep /\
  start + Terminal.band_height ystep computation_window start
  <= ysize computation_window.
Proof using ystep_pos.
  intros Hrem. unfold Terminal.band_height.
  destruct (start + ystep >? ysize computation_window) eqn:Hclip.
  - apply Z.gtb_lt in Hclip. lia.
  - rewrite Z.gtb_ltb in Hclip. apply Z.ltb_ge in Hclip. lia.
Qed.

(** The rows from [start] to the end of the window are the band at [start]
    followed by the rows from the next band on. *)
Lemma band_split (row : Z -> list Z) (start : Z) :
  1 <= ysize computation_window - start ->
  rows_of row start (ysize computation_window - start)
  = rows_of row start (Terminal.band_height ystep computation_window start)
    ++ rows_of row (start + ystep) (ysize computation_window - (start + ystep)).
Proof using ystep_pos.
  intros Hrem. unfold Terminal.band_height.
  destruct (start + ystep >? ysize computation_window) eqn:Hclip.
  - apply Z.gtb_lt in Hclip.
    unfold rows_of at 3. rewrite zrange_nonpos by lia. simpl.
    by rewrite app_nil_r.
  - rewrite Z.gtb_ltb in Hclip. apply Z.ltb_ge in Hclip.
    replace (ysize computation_window - start)
      with (ystep + (ysize computation_window - (start + ystep))) at 1 by lia.
    by rewrite rows_of_add by lia.
Qed.

Variable bound : Z.
Hypothesis numpy_sums : sums_exactly bound.
Hypothesis float_adds : adds_exactly bound.

Variable self : node.
Variable row : Z -> list Z.
Hypothesis self_row_local : row_local getattr self row.

Lemma sum_bands_from (count : nat) (start total : Z) :
  0 <= start ->
  Z.to_nat ((ysize computation_window - start + ystep - 1) / ystep) = count ->
  Z.abs total + magnitude (rows_of row start (ysize computation_window - start))
  <= bound ->
  for_each (range_from start ystep count)
    (fun total yoffset =>
       let step := Terminal.band_height ystep computation_window yoffset in
       do chunk <- _eval getattr self yoffset step;
       do s <- np_sum chunk;
       Ok (float_add total s))
    total
  = Ok (total + zsum (concat (rows_of row start (ysize computation_window - start)))).
Proof using ystep_pos self_row_local numpy_sums float_adds.
  revert start total.
  induction count as [| c IH]; intros start total Hstart Hq Hbound; simpl.
  - apply bands_left_zero in Hq.
    unfold rows_of. rewrite zrange_nonpos by lia. simpl. f_equal. lia.
  - apply bands_left_succ in Hq as [Hrem Hc].
    destruct (band_height_inside start Hrem) as [Hb Hfit].
    rewrite (band_split row start Hrem) in Hbound |- *.
    rewrite magnitude_app in Hbound. rewrite concat_app, zsum_app.
    set (band := rows_of row start
                   (Terminal.band_height ystep computation_window start)) in *.
    set (rest := rows_of row (start + ystep)
                   (ysize computation_window - (start + ystep))) in *.
    pose proof (magnitude_nonneg band) as Hband0.
    pose proof (magnitude_nonneg rest) as Hrest0.
    pose proof (zsum_le_magnitude band) as Hband.
    rewrite self_row_local by lia. fold band. cbn [bind].
    rewrite numpy_sums by lia. cbn [bind].
    rewrite float_adds by lia.
    rewrite IH; [| lia | exact Hc | fold rest; lia].
    f_equal. fold rest. lia.
Qed.

(** The sum part of C1: over a row-local node, with numpy's sum and the
    float addition exact up to a bound on the magnitude of the window, [sum]
    returns the sum of every cell of the window, whatever the positive band
    height. *)
Lemma sum_is_global_sum :
  window self = Ok computation_window ->
  magnitude (rows_of row 0 (ysize computation_window)) <= bound ->
  Terminal.sum getattr ystep self
  = Ok (zsum (concat (rows_of row 0 (ysize computation_window)))).
Proof using ystep_pos self_row_local numpy_sums float_adds.
  intros Hw Hbound. unfold Terminal.sum. rewrite Hw. simpl. unfold range3.
  rewrite sum_bands_from; rewrite ?Z.sub_0_r; try reflexivity; simpl; lia.
Qed.

End Bands.

(** Two positive band heights give the same [sum]. *)
Lemma sum_band_height_independent getattr (ystep1 ystep2 bound : Z) (self : node)
    (w : Window) (row : Z -> list Z) :
  0 < ystep1 -> 0 < ystep2 ->
  sums_exactly bound -> adds_exactly bound ->
  window self = Ok w ->
  row_local getattr self row ->
  magnitude (rows_of row 0 (ysize w)) <= bound ->
  Terminal.sum getattr ystep1 self = Terminal.sum getattr ystep2 self.
Proof.
  intros H1 H2 Hs Ha Hw Hrow Hb.
  by rewrite (sum_is_global_sum getattr ystep1 H1 w bound Hs Ha self row Hrow Hw Hb),
             (sum_is_global_sum getattr ystep2 H2 w bound Hs Ha self row Hrow Hw Hb).
Qed.

Lemma for_each_ext {A S : Type} (xs : list A) (f g : S -> A -> res S) (s : S) :
  (forall s' x, f s' x = g s' x) -> for_each xs f s = for_each xs g s.
Proof.
  intros Hfg. revert s.
  induction xs as [| x xs IH]; intros s; simpl; [reflexivity |].
  rewrite Hfg. destruct (g s x); simpl; [apply IH | reflexivity].
Qed.

Lemma wrapped_eval getattr (self : node) (index step : Z) :
  _eval getattr (LayerOperation self None None) index step
  = _eval getattr self index step.
Proof. simpl. by destruct (_eval getattr self index step). Qed.

Lemma wrapped_window (self : node) :
  window (LayerOperation self None None) = window self.
Proof.
  simpl. destruct (window self) as [w | e] eqn:Hw; [reflexivity |].
  apply window_raises in Hw. by subst e.
Qed.

(** Reducing a plain layer through the mixin is reducing the layer. *)
Lemma mixin_sum_unwrapped getattr (ystep : Z) (self : node) :
  Terminal.LayerMathMixin_sum getattr ystep self = Terminal.sum getattr ystep self.
Proof.
  unfold Terminal.LayerMathMixin_sum, Terminal.sum. rewrite wrapped_window.
  destruct (window self) as [w | e]; cbn [bind]; [| reflexivity].
  apply for_each_ext. intros total yoffset. cbv zeta. by rewrite wrapped_eval.
Qed.

(** *** What [min] and [max] return on a raster of one value *)

Lemma zrange_pos (n : Z) : 1 <= n -> exists rest, zrange n = 0 :: rest.
Proof.
  intros Hn. unfold zrange, range.
  destruct (Z.to_nat n) as [| k] eqn:Hk; [lia |].
  simpl. by eexists.
Qed.

Lemma length_range_from (start step : Z) (count : nat) :
  length (range_from start step count) = count.
Proof.
  revert start. induction count as [| c IH]; intros start; simpl;
    [reflexivity | by rewrite IH].
Qed.

Lemma fold_min_same (z : Z) (cells : list Z) :
  Forall (fun c => c = z) cells -> fold_right Z.min z cells = z.
Proof.
  induction 1 as [| c cells -> _ IH]; simpl; [reflexivity |].
  rewrite IH. apply Z.min_id.
Qed.

Lemma fold_max_same (z : Z) (cells : list Z) :
  Forall (fun c => c = z) cells -> fold_right Z.max z cells = z.
Proof.
  induction 1 as [| c cells -> _ IH]; simpl; [reflexivity |].
  rewrite IH. apply Z.max_id.
Qed.

Lemma constant_grid_cells (z cols step : Z) :
  1 <= cols -> 1 <= step ->
  exists cells,
    concat (map (fun _ : Z => map (fun _ : Z => z) (zrange cols)) (zrange step))
    = z :: cells /\
    Forall (fun c => c = z) cells.
Proof.
  intros Hc Hs.
  destruct (zrange_pos cols Hc) as [cs Hcs].
  destruct (zrange_pos step Hs) as [rs Hrs].
  rewrite Hrs, Hcs. simpl. eexists. split; [reflexivity |].
  apply Forall_app. split.
  - apply Forall_forall. intros c Hin.
    apply list_elem_of_In, in_map_iff in Hin as [c' [<- _]]. reflexivity.
  - apply Forall_forall. intros c Hin.
    apply list_elem_of_In, in_concat in Hin as [row [Hrow Hin]].
    apply in_map_iff in Hrow as [r [<- _]]. simpl in Hin.
    destruct Hin as [<- | Hin]; [reflexivity |].
    apply in_map_iff in Hin as [c' [<- _]]. reflexivity.
Qed.

Section ConstantRaster.

Variable getattr : value -> string -> option (list value -> res value).
Variable ystep : Z.
Hypothesis ystep_pos : 0 < ystep.
Variables rows cols z : Z.
Hypothesis cols_pos : 1 <= cols.
Variable bound : Z.
Hypothesis float_adds : adds_exactly bound.

Lemma constant_band_extremes (yoffset step : Z) :
  1 <= step ->
  exists chunk,
    _eval getattr (RasterLayer (constant_raster rows cols z)) yoffset step = Ok chunk /\
    np_min chunk = Ok z /\ np_max chunk = Ok z.
Proof using cols_pos.
  intros Hs. eexists. split; [reflexivity |].
  unfold read_array. simpl.
  destruct (constant_grid_cells z cols step cols_pos Hs) as [cells [-> Hcells]].
  by rewrite fold_min_same, fold_max_same.
Qed.

(** A band loop that adds [z] for every band adds it as often as there are
    bands. *)
Lemma extreme_bands_from (reduce : value -> res Z) (count : nat) (start total : Z) :
  (forall yoffset step, 1 <= step ->
     exists chunk,
       _eval getattr (RasterLayer (constant_raster rows cols z)) yoffset step = Ok chunk /\
       reduce chunk = Ok z) ->
  Z.to_nat ((rows - start + ystep - 1) / ystep) = count ->
  Z.abs total + Z.abs z * Z.of_nat count <= bound ->
  for_each (range_from start ystep count)
    (fun total yoffset =>
       let step := Terminal.band_height ystep (mkWindow 0 0 cols rows) yoffset in
       do chunk <- _eval getattr (RasterLayer (constant_raster rows cols z)) yoffset step;
       do m <- reduce chunk;
       Ok (float_add total m))
    total
  = Ok (total + z * Z.of_nat count).
Proof using ystep_pos float_adds.
  intros Hband. revert start total.
  induction count as [| c IH]; intros start total Hq Hbound.
  - simpl. f_equal. lia.
  - apply bands_left_succ in Hq as [Hrem Hc]; [| exact ystep_pos].
    cbn [range_from for_each].
    destruct (Hband start (Terminal.band_height ystep (mkWindow 0 0 cols rows) start))
      as [chunk [Hchunk Hred]].
    { unfold Terminal.band_height. simpl.
      destruct (start + ystep >? rows); lia. }
    cbv zeta. rewrite Hchunk. cbn [bind]. rewrite Hred. cbn [bind].
    rewrite float_adds by lia.
    rewrite IH; [f_equal; lia | exact Hc | lia].
Qed.

(** The defect behind C1 in general: on a raster whose every pixel is [z],
    [min] and [max] return [z] times the number of bands, not [z], the float
    additions being exact up to that product. *)
Lemma extremes_of_constant_raster :
  let bands := Z.of_nat (length (range3 0 rows ystep)) in
  Z.abs z * bands <= bound ->
  Terminal.min getattr ystep (RasterLayer (constant_raster rows cols z)) = Ok (z * bands) /\
  Terminal.max getattr ystep (RasterLayer (constant_raster rows cols z)) = Ok (z * bands).
Proof using ystep_pos cols_pos float_adds.
  unfold Terminal.min, Terminal.max, range3. simpl.
  rewrite length_range_from. intros Hbound. split.
  - rewrite (extreme_bands_from np_min); [reflexivity | | reflexivity | simpl; lia].
    intros yoffset step Hs.
    destruct (constant_band_extremes yoffset step Hs) as [chunk [H1 [H2 _]]].
    by exists chunk.
  - rewrite (extreme_bands_from np_max); [reflexivity | | reflexivity | simpl; lia].
    intros yoffset step Hs.
    destruct (constant_band_extremes yoffset step Hs) as [chunk [H1 [_ H2]]].
    by exists chunk.
Qed.

End ConstantRaster.

(** ** Saving *)

Section SaveFacts.

Variable getattr : value -> string -> option (list value -> res value).
Variable ystep : Z.
Variable self : node.
Variable computation_window destination_window' : Window.

(** Over bands that all evaluate to arrays, the chunk loop of [save] with
    [and_sum] accumulates what the loop of [sum] accumulates. *)
Lemma save_bands_sum (yoffsets : list Z) (total : Z) (band : raster_band) :
  (forall yoffset, In yoffset yoffsets ->
     exists a, _eval getattr self yoffset
                 (Terminal.band_height ystep computation_window yoffset)
               = Ok (VArr a)) ->
  fst (io_for_each yoffsets
         (Terminal.save_band getattr ystep self computation_window
            destination_window' true)
         total band)
  = for_each yoffsets
      (fun total yoffset =>
         let step := Terminal.band_height ystep computation_window yoffset in
         do chunk <- _eval getattr self yoffset step;
         do s <- np_sum chunk;
         Ok (float_add total s))
      total.
Proof.
  revert total band.
  induction yoffsets as [| yoffset rest IH]; intros total band Harr; simpl;
    [reflexivity |].
  destruct (Harr yoffset (or_introl eq_refl)) as [a Ha].
  unfold io_bind at 1. unfold Terminal.save_band at 1.
  unfold io_bind, io_lift, WriteArray, io_ret. rewrite Ha. simpl.
  destruct (np_sum (VArr a)) as [s | e]; simpl; [| reflexivity].
  apply IH. intros y Hy. apply Harr. by right.
Qed.

(** X9: when every band evaluates to an array, [save] with [and_sum] into a
    destination that passes the checks returns the value of [sum]. *)
Lemma save_sum_agrees_on_arrays (destination : Destination) (band : raster_band) :
  has_raster_band destination = true ->
  window self = Ok computation_window ->
  destination_window destination = Some destination_window' ->
  xsize computation_window = xsize destination_window' ->
  ysize computation_window = ysize destination_window' ->
  (forall yoffset, In yoffset (range3 0 (ysize computation_window) ystep) ->
     exists a, _eval getattr self yoffset
                 (Terminal.band_height ystep computation_window yoffset)
               = Ok (VArr a)) ->
  fst (Terminal.save getattr ystep self (Some destination) true band)
  = do total <- Terminal.sum getattr ystep self; Ok (Some total).
Proof.
  intros Hb Hcw Hdw Hx Hy Harr. unfold Terminal.save, Terminal.sum.
  rewrite Hb. simpl. unfold io_bind at 1. unfold io_lift at 1. rewrite Hcw.
  unfold io_bind at 1. unfold io_lift at 1. rewrite Hdw.
  rewrite Hx, Hy, !Z.eqb_refl. simpl. rewrite <- Hy.
  unfold io_bind.
  pose proof (save_bands_sum (range3 0 (ysize computation_window) ystep) 0 band Harr)
    as Hloop.
  destruct (io_for_each _ _ 0 band) as [[total | e] band'];
    simpl in Hloop; rewrite <- Hloop; reflexivity.
Qed.

(** Without [and_sum], a [save] that returns returns [None]. *)
Lemma save_without_sum (destination_layer : option Destination)
    (band : raster_band) (r : option Z) :
  fst (Terminal.save getattr ystep self destination_layer false band) = Ok r ->
  r = None.
Proof.
  unfold Terminal.save.
  destruct destination_layer as [d |]; [| discriminate].
  destruct (has_raster_band d); simpl; [| discriminate].
  unfold io_bind, io_lift.
  destruct (window self) as [cw | e]; [| discriminate].
  destruct (destination_window d) as [dw |]; [| discriminate].
  destruct (negb (xsize cw =? xsize dw) || negb (ysize cw =? ysize dw));
    [discriminate |].
  destruct (io_for_each _ _ 0 band) as [[total | e] band']; simpl;
    [| discriminate].
  by intros [= <-].
Qed.

End SaveFacts.


(** * Further properties of the engine *)

(** ** Windows and lengths of whole trees *)

Lemma first_window_app (xs ys : list node) :
  head (omap leaf_window (xs ++ ys))
  = match head (omap leaf_window xs) with
    | Some w => Some w
    | None => head (omap leaf_window ys)
    end.
Proof.
  rewrite omap_app. by destruct (omap leaf_window xs).
Qed.

(** X1: the window of an expression is the window of its first leaf, from left
    to right, that exposes one; without such a leaf the query is an
    [AttributeError]. *)
Theorem window_is_first_leaf_window (n : node) :
  window n = match head (omap leaf_window (leaves n)) with
             | Some w => Ok w
             | None => Raise AttributeError
             end.
Proof.
  revert n. fix IH 1. intros n.
  destruct n as [l | val | lhs op rhs | lhs op rhs]; simpl.
  - by destruct (layer_window l).
  - reflexivity.
  - rewrite first_window_app, (IH lhs).
    destruct (head (omap leaf_window (leaves lhs))); [reflexivity |].
    destruct rhs as [r |]; [apply IH | reflexivity].
  - rewrite first_window_app, (IH lhs).
    destruct (head (omap leaf_window (leaves lhs))); [reflexivity |].
    destruct rhs as [r |]; [apply IH | reflexivity].
Qed.

Lemma leftmost_is_leaf (n : node) : operands (leftmost n) = None.
Proof. induction n; simpl; auto. Qed.

(** X2: [len] of an expression is [len] of its leftmost leaf: neither the
    operator nor the rhs takes part, and an expression whose leftmost leaf is
    a constant has no length. *)
Theorem len_is_len_of_leftmost (layer_len : Layer -> res Z) (n : node) :
  operands (leftmost n) = None /\
  __len__ layer_len n = __len__ layer_len (leftmost n) /\
  (forall val, leftmost n = LayerConstant val ->
     __len__ layer_len n = Raise TypeError).
Proof.
  split; [apply leftmost_is_leaf |].
  assert (H : __len__ layer_len n = __len__ layer_len (leftmost n))
    by (induction n; simpl; auto).
  split; [exact H |].
  intros val Hval. by rewrite H, Hval.
Qed.

(** ** The bands of a window *)

Section BandLayout.

Variable ystep : Z.
Hypothesis ystep_pos : 0 < ystep.
Variable computation_window : Window.

Lemma range_from_bounds (count : nat) (start yoffset : Z) :
  Z.to_nat ((ysize computation_window - start + ystep - 1) / ystep) = count ->
  In yoffset (range_from start ystep count) ->
  start <= yoffset < ysize computation_window.
Proof using ystep_pos.
  revert start. induction count as [| c IH]; intros start Hq Hin; simpl in Hin;
    [destruct Hin |].
  apply bands_left_succ in Hq as [Hrem Hc]; [| exact ystep_pos].
  destruct Hin as [<- | Hin]; [lia |].
  specialize (IH (start + ystep) Hc Hin). lia.
Qed.

Lemma band_height_bounds (yoffset : Z) :
  yoffset < ysize computation_window ->
  1 <= Terminal.band_height ystep computation_window yoffset <= ystep /\
  yoffset + Terminal.band_height ystep computation_window yoffset
  <= ysize computation_window.
Proof using ystep_pos.
  intros Hy. unfold Terminal.band_height.
  destruct (yoffset + ystep >? ysize computation_window) eqn:Hclip.
  - apply Z.gtb_lt in Hclip. lia.
  - rewrite Z.gtb_ltb in Hclip. apply Z.ltb_ge in Hclip. lia.
Qed.

(** The rows of the bands from [start] on, one band after the other, are
    the rows from [start] to the end of the window. *)
Lemma band_rows_from {A : Type} (g : Z -> A) (count : nat) (start : Z) :
  Z.to_nat ((ysize computation_window - start + ystep - 1) / ystep) = count ->
  concat (map (fun yoffset =>
                 map (fun r => g (yoffset + r))
                     (zrange (Terminal.band_height ystep computation_window yoffset)))
              (range_from start ystep count))
  = map (fun r => g (start + r)) (zrange (ysize computation_window - start)).
Proof using ystep_pos.
  revert start. induction count as [| c IH]; intros start Hq; simpl.
  - apply bands_left_zero in Hq; [| exact ystep_pos].
    by rewrite zrange_nonpos by lia.
  - apply bands_left_succ in Hq as [Hrem Hc]; [| exact ystep_pos].
    rewrite (IH _ Hc).
    destruct (band_height_bounds start) as [Hb Hfit]; [lia |].
    unfold Terminal.band_height in *.
    destruct (start + ystep >? ysize computation_window) eqn:Hclip.
    + rewrite (zrange_nonpos (ysize computation_window - (start + ystep))) by lia.
      simpl. by rewrite app_nil_r.
    + replace (ysize computation_window - start)
        with (ystep + (ysize computation_window - (start + ystep))) by lia.
      rewrite zrange_add, map_app, map_map by lia. f_equal.
      apply map_ext. intros r. f_equal. lia.
Qed.

(** X3: the chunk loops of [sum], [min], [max] and [save] cut the window into
    bands that tile it: every band starts inside the window, is between one
    and [ystep] rows high and ends inside the window, and the rows of the
    bands, taken in order, are the rows 0, 1, ... of the window, each once. *)
Theorem bands_tile_the_window :
  (forall yoffset,
     In yoffset (range3 0 (ysize computation_window) ystep) ->
     0 <= yoffset < ysize computation_window /\
     1 <= Terminal.band_height ystep computation_window yoffset <= ystep /\
     yoffset + Terminal.band_height ystep computation_window yoffset
     <= ysize computation_window) /\
  concat (map (fun yoffset =>
                 map (fun r => yoffset + r)
                     (zrange (Terminal.band_height ystep computation_window yoffset)))
              (range3 0 (ysize computation_window) ystep))
  = zrange (ysize computation_window).
Proof using ystep_pos.
  split.
  - intros yoffset Hin. unfold range3 in Hin.
    apply range_from_bounds in Hin; [| reflexivity].
    split; [lia |]. apply band_height_bounds. lia.
  - unfold range3.
    rewrite (band_rows_from (fun r => r)) by reflexivity.
    rewrite Z.sub_0_r. rewrite <- (map_id (zrange (ysize computation_window))) at 2.
    apply map_ext. intros r. lia.
Qed.

End BandLayout.

(** ** Reductions *)

Lemma range3_single (ystep height : Z) :
  1 <= height <= ystep -> range3 0 height ystep = [0].
Proof.
  intros Hh. unfold range3.
  assert (H1 : 1 <= (height - 0 + ystep - 1) / ystep)
    by (apply Z.div_le_lower_bound; lia).
  assert (H2 : (height - 0 + ystep - 1) / ystep < 2)
    by (apply Z.div_lt_upper_bound; lia).
  replace (Z.to_nat ((height - 0 + ystep - 1) / ystep)) with 1%nat by lia.
  reflexivity.
Qed.

(** X4: a window that fits in one band is reduced in one evaluation: [sum],
    [min] and [max] return [0.0] plus numpy's sum, minimum and maximum of the
    whole window's chunk, as a float. *)
Theorem single_band_reductions getattr (ystep : Z) (self : node) (w : Window) :
  window self = Ok w ->
  1 <= ysize w <= ystep ->
  Terminal.sum getattr ystep self
  = (do chunk <- _eval getattr self 0 (ysize w);
     do s <- np_sum chunk; Ok (float_add 0 s)) /\
  Terminal.min getattr ystep self
  = (do chunk <- _eval getattr self 0 (ysize w);
     do m <- np_min chunk; Ok (float_add 0 m)) /\
  Terminal.max getattr ystep self
  = (do chunk <- _eval getattr self 0 (ysize w);
     do m <- np_max chunk; Ok (float_add 0 m)).
Proof.
  intros Hw Hh. unfold Terminal.sum, Terminal.min, Terminal.max.
  rewrite Hw. cbn [bind]. rewrite range3_single by exact Hh.
  assert (Hstep : Terminal.band_height ystep w 0 = ysize w).
  { unfold Terminal.band_height. destruct (0 + ystep >? ysize w) eqn:Hclip; [lia |].
    rewrite Z.gtb_ltb in Hclip. apply Z.ltb_ge in Hclip. lia. }
  cbn [for_each]. cbv zeta. rewrite Hstep.
  destruct (_eval getattr self 0 (ysize w)) as [chunk | e]; cbn [bind];
    [| by repeat split].
  repeat split.
  - destruct (np_sum chunk); reflexivity.
  - destruct (np_min chunk); reflexivity.
  - destruct (np_max chunk); reflexivity.
Qed.

(** X5: over a node whose bands are the rows of one grid, and with numpy's
    sum and the float addition exact up to a bound that the magnitude of the
    window's cells does not exceed, [sum] returns the sum of every cell of the
    window's rows for every positive band height: two band heights give the
    same result. *)
Theorem sum_totals_the_window getattr (ystep1 ystep2 bound : Z) (self : node)
    (w : Window) (row : Z -> list Z) :
  0 < ystep1 -> 0 < ystep2 ->
  sums_exactly bound -> adds_exactly bound ->
  window self = Ok w ->
  row_local getattr self row ->
  magnitude (rows_of row 0 (ysize w)) <= bound ->
  Terminal.sum getattr ystep1 self = Ok (zsum (concat (rows_of row 0 (ysize w)))) /\
  Terminal.sum getattr ystep2 self = Terminal.sum getattr ystep1 self.
Proof.
  intros H1 H2 Hs Ha Hw Hrow Hb.
  by rewrite (sum_is_global_sum getattr ystep1 H1 w bound Hs Ha self row Hrow Hw Hb),
             (sum_is_global_sum getattr ystep2 H2 w bound Hs Ha self row Hrow Hw Hb).
Qed.

(** ** What [save] writes *)

Section SaveWrites.

Variable getattr : value -> string -> option (list value -> res value).
Variable ystep : Z.
Hypothesis ystep_pos : 0 < ystep.
Variable self : node.
Variable computation_window destination_window' : Window.
Variable row : Z -> list Z.
Hypothesis self_row_local : row_local getattr self row.

Lemma save_bands_from (and_sum : bool) (bound : Z) (count : nat)
    (start total : Z) (band : raster_band) :
  0 <= start ->
  Z.to_nat ((ysize computation_window - start + ystep - 1) / ystep) = count ->
  (and_sum = true ->
   sums_exactly bound /\ adds_exactly bound /\
   Z.abs total
   + magnitude (rows_of row start (ysize computation_window - start)) <= bound) ->
  io_for_each (range_from start ystep count)
    (Terminal.save_band getattr ystep self computation_window destination_window'
       and_sum)
    total band
  = (Ok (if and_sum
         then total + zsum (concat (rows_of row start
                                      (ysize computation_window - start)))
         else total),
     band ++ map (fun yoffset =>
                    (rows_of row yoffset
                       (Terminal.band_height ystep computation_window yoffset),
                     xoff destination_window', yoffset + yoff destination_window'))
                 (range_from start ystep count)).
Proof using ystep_pos self_row_local.
  revert start total band.
  induction count as [| c IH]; intros start total band Hstart Hq Hexact.
  - apply bands_left_zero in Hq; [| exact ystep_pos].
    simpl. unfold io_ret. rewrite app_nil_r.
    unfold rows_of. rewrite zrange_nonpos by lia. simpl.
    destruct and_sum; [f_equal; f_equal; lia | reflexivity].
  - apply bands_left_succ in Hq as [Hrem Hc]; [| exact ystep_pos].
    destruct (band_height_inside ystep ystep_pos computation_window start Hrem)
      as [Hb Hfit].
    cbn [range_from io_for_each map]. unfold io_bind at 1.
    unfold Terminal.save_band at 1.
    unfold io_bind, io_lift, WriteArray, io_ret.
    rewrite self_row_local by lia.
    rewrite (band_split ystep ystep_pos computation_window row start Hrem)
      in Hexact |- *.
    rewrite magnitude_app in Hexact. rewrite concat_app, zsum_app.
    set (chunk := rows_of row start
                    (Terminal.band_height ystep computation_window start)) in *.
    pose proof (magnitude_nonneg chunk) as Hchunk0.
    pose proof (zsum_le_magnitude chunk) as Hchunk.
    pose proof (magnitude_nonneg
                  (rows_of row (start + ystep)
                     (ysize computation_window - (start + ystep)))) as Hrest0.
    destruct and_sum.
    + destruct (Hexact eq_refl) as (Hsums & Hadds & Hbound).
      rewrite Hsums by lia. rewrite Hadds by lia.
      fold (io_bind (A := Z) (B := Z)).
      rewrite (IH (start + ystep)); [| lia | exact Hc |].
      * rewrite <- app_assoc. cbn [app]. f_equal. f_equal. lia.
      * intros _. repeat split; [exact Hsums | exact Hadds | lia].
    + rewrite (IH (start + ystep)); [| lia | exact Hc | discriminate].
      by rewrite <- app_assoc.
Qed.

(** X6: saving a node whose bands are the rows of one grid into a destination
    that passes the checks succeeds: it appends one write per band, at the
    destination's column offset and at the band's row plus the destination's
    row offset, and the written chunks put one under the other are the rows of
    the window. Without [and_sum] the result is [None]; with it, and with
    numpy's sum and the float addition exact up to a bound that the magnitude
    of the window's cells does not exceed, the result is the sum of the
    cells. *)
Theorem save_writes_the_bands (destination : Destination) (and_sum : bool)
    (band : raster_band) (bound : Z) :
  window self = Ok computation_window ->
  has_raster_band destination = true ->
  destination_window destination = Some destination_window' ->
  xsize computation_window = xsize destination_window' ->
  ysize computation_window = ysize destination_window' ->
  (and_sum = true ->
   sums_exactly bound /\ adds_exactly bound /\
   magnitude (rows_of row 0 (ysize computation_window)) <= bound) ->
  Terminal.save getattr ystep self (Some destination) and_sum band
  = (Ok (if and_sum
         then Some (zsum (concat (rows_of row 0 (ysize computation_window))))
         else None),
     band ++ band_writes ystep row computation_window destination_window') /\
  concat (map (fun write => fst (fst write))
              (band_writes ystep row computation_window destination_window'))
  = rows_of row 0 (ysize computation_window).
Proof using ystep_pos self_row_local.
  intros Hcw Hb Hdw Hx Hy Hexact. split.
  - unfold Terminal.save. rewrite Hb. simpl.
    unfold io_bind at 1. unfold io_lift at 1. rewrite Hcw.
    unfold io_bind at 1. unfold io_lift at 1. rewrite Hdw.
    rewrite Hx, Hy, !Z.eqb_refl. simpl. rewrite <- Hy.
    unfold io_bind, range3.
    rewrite (save_bands_from and_sum bound); [| lia | reflexivity |].
    + unfold io_ret, band_writes, range3. rewrite !Z.sub_0_r.
      by destruct and_sum.
    + intros Hs. destruct (Hexact Hs) as (Hsums & Hadds & Hbound).
      rewrite Z.sub_0_r. repeat split; first [assumption | simpl; lia].
  - unfold band_writes, range3. rewrite map_map. simpl.
    unfold rows_of.
    rewrite (band_rows_from ystep ystep_pos computation_window row) by reflexivity.
    by rewrite Z.sub_0_r.
Qed.

End SaveWrites.

Section SaveAppends.

Variable getattr : value -> string -> option (list value -> res value).
Variable ystep : Z.
Variable self : node.
Variable computation_window destination_window' : Window.
Variable and_sum : bool.

(** One iteration of the chunk loop: the band's chunk, if there is one, is
    appended, whether or not the iteration then runs to its end. *)
Lemma save_band_writes (total yoffset : Z) (band : raster_band) :
  snd (Terminal.save_band getattr ystep self computation_window
         destination_window' and_sum total yoffset band)
  = band ++ match band_chunk getattr ystep self computation_window
                    destination_window' yoffset with
            | Some a => [(a, xoff destination_window',
                             yoffset + yoff destination_window')]
            | None => []
            end /\
  is_ok (fst (Terminal.save_band getattr ystep self computation_window
                destination_window' and_sum total yoffset band))
  = completes getattr ystep self computation_window destination_window'
      and_sum yoffset.
Proof.
  unfold completes, band_chunk, Terminal.save_band, io_bind, io_lift, WriteArray,
    io_ret.
  destruct (_eval getattr self yoffset _) as [[z | a |] | e]; simpl;
    try (rewrite app_nil_r; split; reflexivity).
  - unfold np_full.
    destruct ((Terminal.band_height ystep computation_window yoffset <? 0)
              || (xsize destination_window' <? 0)); simpl;
      [rewrite app_nil_r; split; reflexivity |].
    destruct and_sum; simpl; [| split; reflexivity].
    destruct (np_sum _); split; reflexivity.
  - destruct and_sum; simpl; [| split; reflexivity].
    destruct (np_sum _); split; reflexivity.
Qed.

Lemma save_bands_written (yoffsets : list Z) (total : Z) (band : raster_band) :
  snd (io_for_each yoffsets
         (Terminal.save_band getattr ystep self computation_window
            destination_window' and_sum) total band)
  = band ++ written getattr ystep self computation_window destination_window'
              and_sum yoffsets /\
  is_ok (fst (io_for_each yoffsets
                (Terminal.save_band getattr ystep self computation_window
                   destination_window' and_sum) total band))
  = forallb (completes getattr ystep self computation_window destination_window'
               and_sum) yoffsets.
Proof.
  revert total band.
  induction yoffsets as [| yoffset rest IH]; intros total band.
  - simpl. by rewrite app_nil_r.
  - cbn [io_for_each written forallb]. unfold io_bind.
    destruct (save_band_writes total yoffset band) as [Hsnd Hok].
    destruct (Terminal.save_band getattr ystep self computation_window
                destination_window' and_sum total yoffset band)
      as [[total' | e] band'] eqn:Hband; simpl in Hsnd, Hok.
    + rewrite <- Hok. cbn [andb].
      destruct (IH total' band') as [IHsnd IHok]. rewrite IHsnd, IHok, Hsnd.
      unfold completes in Hok.
      destruct (band_chunk getattr ystep self computation_window
                  destination_window' yoffset) as [a |]; [| discriminate].
      by rewrite <- app_assoc.
    + rewrite <- Hok. cbn [andb snd fst is_ok]. rewrite Hsnd.
      by destruct (band_chunk getattr ystep self computation_window
                     destination_window' yoffset).
Qed.

End SaveAppends.

(** X7: [save] only ever appends to the destination, and what it appends is
    known band by band. Once the checks before the chunk loop have passed, the
    band holds what it held before followed by one chunk per band of the
    window, in order, up to the first band whose iteration does not run to its
    end; that band's own chunk is there too when the failure came after its
    write. Nothing written is taken back, and [save] returns exactly when every
    iteration runs to its end. *)
Theorem save_only_appends getattr (ystep : Z) (self : node)
    (destination_layer : option Destination) (and_sum : bool) (band : raster_band) :
  (exists writes,
     snd (Terminal.save getattr ystep self destination_layer and_sum band)
     = band ++ writes) /\
  (forall destination cw dw,
     destination_layer = Some destination ->
     has_raster_band destination = true ->
     window self = Ok cw ->
     destination_window destination = Some dw ->
     xsize cw = xsize dw ->
     ysize cw = ysize dw ->
     snd (Terminal.save getattr ystep self destination_layer and_sum band)
     = band ++ written getattr ystep self cw dw and_sum
                 (range3 0 (ysize cw) ystep) /\
     is_ok (fst (Terminal.save getattr ystep self destination_layer and_sum band))
     = forallb (completes getattr ystep self cw dw and_sum)
               (range3 0 (ysize cw) ystep)).
Proof.
  assert (Hloop : forall destination cw dw,
            destination_layer = Some destination ->
            has_raster_band destination = true ->
            window self = Ok cw ->
            destination_window destination = Some dw ->
            xsize cw = xsize dw ->
            ysize cw = ysize dw ->
            snd (Terminal.save getattr ystep self destination_layer and_sum band)
            = band ++ written getattr ystep self cw dw and_sum
                        (range3 0 (ysize cw) ystep) /\
            is_ok (fst (Terminal.save getattr ystep self destination_layer
                          and_sum band))
            = forallb (completes getattr ystep self cw dw and_sum)
                      (range3 0 (ysize cw) ystep)).
  { intros d cw dw -> Hb Hcw Hdw Hx Hy.
    unfold Terminal.save. rewrite Hb. cbn [negb].
    unfold io_bind, io_lift. rewrite Hcw, Hdw, Hx, Hy, !Z.eqb_refl. cbn [negb orb].
    rewrite <- Hy.
    destruct (save_bands_written getattr ystep self cw dw and_sum
                (range3 0 (ysize cw) ystep) 0 band) as [Hsnd Hok].
    destruct (io_for_each _ _ 0 band) as [[total | e] band']; simpl in *;
      by split. }
  split; [| exact Hloop].
  destruct destination_layer as [d |] eqn:Hd; [| by exists []; rewrite app_nil_r].
  destruct (has_raster_band d) eqn:Hb;
    [| exists []; unfold Terminal.save; rewrite Hb; by rewrite app_nil_r].
  destruct (window self) as [cw | e] eqn:Hcw;
    [| exists []; unfold Terminal.save, io_bind, io_lift; rewrite Hb, Hcw;
       by rewrite app_nil_r].
  destruct (destination_window d) as [dw |] eqn:Hdw;
    [| exists []; unfold Terminal.save, io_bind, io_lift; rewrite Hb, Hcw, Hdw;
       by rewrite app_nil_r].
  destruct (Z.eq_dec (xsize cw) (xsize dw)) as [Hx | Hx];
    [destruct (Z.eq_dec (ysize cw) (ysize dw)) as [Hy | Hy] |].
  - eexists. apply (Hloop d cw dw eq_refl Hb eq_refl Hdw Hx Hy).
  - exists []. unfold Terminal.save, io_bind, io_lift. rewrite Hb, Hcw, Hdw.
    cbn [negb]. apply Z.eqb_neq in Hy. rewrite Hy, orb_true_r.
    by rewrite app_nil_r.
  - exists []. unfold Terminal.save, io_bind, io_lift. rewrite Hb, Hcw, Hdw.
    cbn [negb]. apply Z.eqb_neq in Hx. rewrite Hx.
    by rewrite app_nil_r.
Qed.

Lemma zsum_repeat (z : Z) (n : nat) : zsum (repeat z n) = z * Z.of_nat n.
Proof. induction n as [| n IH]; simpl; [lia |]. rewrite IH. lia. Qed.

Lemma zsum_repeat_grid (z : Z) (cols rows : nat) :
  zsum (concat (repeat (repeat z cols) rows)) = z * Z.of_nat cols * Z.of_nat rows.
Proof.
  induction rows as [| r IH]; simpl; [lia |].
  rewrite zsum_app, IH, zsum_repeat. lia.
Qed.

Lemma map_repeat_cells {A B : Type} (f : A -> B) (x : A) (n : nat) :
  map f (repeat x n) = repeat (f x) n.
Proof. induction n as [| n IH]; simpl; [reflexivity | by rewrite IH]. Qed.

Lemma magnitude_repeat_grid (z : Z) (cols rows : nat) :
  magnitude (repeat (repeat z cols) rows)
  = Z.abs z * Z.of_nat cols * Z.of_nat rows.
Proof.
  unfold magnitude. rewrite <- (zsum_repeat_grid (Z.abs z)). f_equal.
  induction rows as [| r IH]; simpl; [reflexivity |].
  rewrite map_app, IH. f_equal. apply map_repeat_cells.
Qed.

Section SaveScalar.

Variable getattr : value -> string -> option (list value -> res value).
Variable ystep : Z.
Hypothesis ystep_pos : 0 < ystep.
Variable self : node.
Variable computation_window destination_window' : Window.
Variable z : Z.
Hypothesis self_scalar :
  forall yoffset step, _eval getattr self yoffset step = Ok (VNum z).
Hypothesis width_nonneg : 0 <= xsize destination_window'.

Lemma save_scalar_bands_from (and_sum : bool) (bound : Z) (count : nat)
    (start total : Z) (band : raster_band) :
  Z.to_nat ((ysize computation_window - start + ystep - 1) / ystep) = count ->
  (and_sum = true ->
   sums_exactly bound /\ adds_exactly bound /\
   Z.abs total
   + Z.abs z * xsize destination_window'
     * Z.max 0 (ysize computation_window - start) <= bound) ->
  io_for_each (range_from start ystep count)
    (Terminal.save_band getattr ystep self computation_window destination_window'
       and_sum)
    total band
  = (Ok (if and_sum
         then total + z * xsize destination_window'
                      * Z.max 0 (ysize computation_window - start)
         else total),
     band ++ map (fun yoffset =>
                    (repeat (repeat z (Z.to_nat (xsize destination_window')))
                       (Z.to_nat (Terminal.band_height ystep computation_window yoffset)),
                     xoff destination_window', yoffset + yoff destination_window'))
                 (range_from start ystep count)).
Proof using ystep_pos self_scalar width_nonneg.
  revert start total band.
  induction count as [| c IH]; intros start total band Hq Hexact.
  - apply bands_left_zero in Hq; [| exact ystep_pos].
    simpl. unfold io_ret. rewrite app_nil_r.
    destruct and_sum; [f_equal; f_equal; lia | reflexivity].
  - apply bands_left_succ in Hq as [Hrem Hc]; [| exact ystep_pos].
    destruct (band_height_inside ystep ystep_pos computation_window start Hrem)
      as [Hb Hfit].
    cbn [range_from io_for_each map]. unfold io_bind at 1.
    unfold Terminal.save_band at 1.
    unfold io_bind, io_lift, WriteArray, io_ret. rewrite self_scalar.
    unfold np_full.
    replace (Terminal.band_height ystep computation_window start <? 0) with false
      by (symmetry; apply Z.ltb_ge; lia).
    replace (xsize destination_window' <? 0) with false
      by (symmetry; apply Z.ltb_ge; lia).
    cbn [orb].
    assert (Hsplit : Z.max 0 (ysize computation_window - start)
                     = Terminal.band_height ystep computation_window start
                       + Z.max 0 (ysize computation_window - (start + ystep))).
    { unfold Terminal.band_height in *.
      destruct (start + ystep >? ysize computation_window) eqn:Hclip.
      - apply Z.gtb_lt in Hclip. lia.
      - rewrite Z.gtb_ltb in Hclip. apply Z.ltb_ge in Hclip. lia. }
    rewrite Hsplit in Hexact |- *.
    set (step := Terminal.band_height ystep computation_window start) in *.
    set (rest := Z.max 0 (ysize computation_window - (start + ystep))) in *.
    destruct and_sum.
    + destruct (Hexact eq_refl) as (Hsums & Hadds & Hbound).
      rewrite Z.mul_add_distr_l in Hbound.
      assert (Hrest0 : 0 <= Z.abs z * xsize destination_window' * rest)
        by (apply Z.mul_nonneg_nonneg; [apply Z.mul_nonneg_nonneg |]; lia).
      assert (Hmag : magnitude
                       (repeat (repeat z (Z.to_nat (xsize destination_window')))
                          (Z.to_nat step))
                     = Z.abs z * xsize destination_window' * step)
        by (rewrite magnitude_repeat_grid, !Z2Nat.id by lia; reflexivity).
      assert (Hchunk0 : 0 <= Z.abs z * xsize destination_window' * step)
        by (apply Z.mul_nonneg_nonneg; [apply Z.mul_nonneg_nonneg |]; lia).
      assert (Hzsum : zsum (concat
                        (repeat (repeat z (Z.to_nat (xsize destination_window')))
                           (Z.to_nat step)))
                      = z * xsize destination_window' * step)
        by (rewrite zsum_repeat_grid, !Z2Nat.id by lia; reflexivity).
      assert (Habs : Z.abs (z * xsize destination_window' * step)
                     = Z.abs z * xsize destination_window' * step)
        by (rewrite !Z.abs_mul, (Z.abs_eq (xsize destination_window')),
              (Z.abs_eq step) by lia; reflexivity).
      rewrite Hsums by lia. rewrite Hzsum.
      rewrite Hadds by lia.
      fold (io_bind (A := Z) (B := Z)).
      rewrite (IH (start + ystep)); [| exact Hc |].
      * rewrite <- app_assoc. cbn [app]. f_equal. f_equal. fold rest. ring.
      * intros _. repeat split; [exact Hsums | exact Hadds |]. fold rest. lia.
    + rewrite (IH (start + ystep)); [| exact Hc | discriminate].
      by rewrite <- app_assoc.
Qed.

(** X8: saving an expression that evaluates to the bare scalar [z] on every
    band writes, for every band, a chunk of the band's height and the
    destination's width filled with [z]. Without [and_sum] the result is
    [None]; with it, and with numpy's sum and the float addition exact up to a
    bound that [|z|] times the number of pixels does not exceed, the result is
    [z] times the number of pixels of the window. *)
Theorem save_spreads_scalar_bands (destination : Destination) (and_sum : bool)
    (band : raster_band) (bound : Z) :
  window self = Ok computation_window ->
  has_raster_band destination = true ->
  destination_window destination = Some destination_window' ->
  xsize computation_window = xsize destination_window' ->
  ysize computation_window = ysize destination_window' ->
  0 <= ysize computation_window ->
  (and_sum = true ->
   sums_exactly bound /\ adds_exactly bound /\
   Z.abs z * xsize computation_window * ysize computation_window <= bound) ->
  Terminal.save getattr ystep self (Some destination) and_sum band
  = (Ok (if and_sum
         then Some (z * xsize computation_window * ysize computation_window)
         else None),
     band ++ scalar_writes ystep z computation_window destination_window').
Proof using ystep_pos self_scalar width_nonneg.
  intros Hcw Hb Hdw Hx Hy Hrows Hexact.
  unfold Terminal.save. rewrite Hb. simpl.
  unfold io_bind at 1. unfold io_lift at 1. rewrite Hcw.
  unfold io_bind at 1. unfold io_lift at 1. rewrite Hdw.
  rewrite Hx in Hexact |- *. rewrite Hy, !Z.eqb_refl. simpl. rewrite <- Hy.
  unfold io_bind, scalar_writes, range3.
  rewrite (save_scalar_bands_from and_sum bound); [| reflexivity |].
  - unfold io_ret. destruct and_sum; [| reflexivity].
    rewrite Z.sub_0_r, Z.max_r by lia.
    do 3 f_equal.
  - intros Hs. destruct (Hexact Hs) as (Hsums & Hadds & Hbound).
    rewrite Z.sub_0_r, Z.max_r by lia.
    repeat split; first [assumption | simpl; lia].
Qed.

End SaveScalar.

(** ** The entry points of a plain layer *)

Lemma io_for_each_ext {A S : Type} (xs : list A) (f g : S -> A -> io S) (s : S)
    (band : raster_band) :
  (forall s' x band', f s' x band' = g s' x band') ->
  io_for_each xs f s band = io_for_each xs g s band.
Proof.
  intros Hfg. revert s band.
  induction xs as [| x xs IH]; intros s band; simpl; [reflexivity |].
  unfold io_bind. rewrite Hfg.
  destruct (g s x band) as [[s' | e] band']; [apply IH | reflexivity].
Qed.

(** X10: [layer.sum()], [layer.min()], [layer.max()] and [layer.save(...)] wrap
    the layer in a node without operator; the wrapper changes neither the
    window nor any band, so each of them is the operation run on the layer's
    own bands. *)
Theorem mixin_terminals_reduce_the_layer getattr (ystep : Z) (self : node) :
  window (LayerOperation self None None) = window self /\
  (forall index step,
     _eval getattr (LayerOperation self None None) index step
     = _eval getattr self index step) /\
  Terminal.LayerMathMixin_sum getattr ystep self = Terminal.sum getattr ystep self /\
  Terminal.LayerMathMixin_min getattr ystep self = Terminal.min getattr ystep self /\
  Terminal.LayerMathMixin_max getattr ystep self = Terminal.max getattr ystep self /\
  (forall destination_layer and_sum band,
     Terminal.LayerMathMixin_save getattr ystep self destination_layer and_sum band
     = Terminal.save getattr ystep self destination_layer and_sum band).
Proof.
  split; [apply wrapped_window |].
  split; [intros; apply wrapped_eval |].
  split; [apply mixin_sum_unwrapped |].
  split; [| split].
  - unfold Terminal.LayerMathMixin_min, Terminal.min. rewrite wrapped_window.
    destruct (window self) as [w | e]; cbn [bind]; [| reflexivity].
    apply for_each_ext. intros total yoffset. cbv zeta. by rewrite wrapped_eval.
  - unfold Terminal.LayerMathMixin_max, Terminal.max. rewrite wrapped_window.
    destruct (window self) as [w | e]; cbn [bind]; [| reflexivity].
    apply for_each_ext. intros total yoffset. cbv zeta. by rewrite wrapped_eval.
  - intros d and_sum band.
    unfold Terminal.LayerMathMixin_save, Terminal.save.
    destruct d as [d |]; [| reflexivity].
    destruct (has_raster_band d); cbn [negb]; [| reflexivity].
    rewrite wrapped_window. unfold io_bind, io_lift.
    destruct (window self) as [cw | e]; [| reflexivity].
    destruct (destination_window d) as [dw |]; [| reflexivity].
    destruct (negb (xsize cw =? xsize dw) || negb (ysize cw =? ysize dw));
      [reflexivity |].
    rewrite (io_for_each_ext _
               (Terminal.save_band getattr ystep (LayerOperation self None None)
                  cw dw and_sum)
               (Terminal.save_band getattr ystep self cw dw and_sum));
      [reflexivity |].
    intros total yoffset b. unfold Terminal.save_band. by rewrite wrapped_eval.
Qed.

(** ** Operators with a scalar on the left *)

(** X11: the retry serves its purpose. With a number on the left of [+] or
    [*] whose own method declines the chunk of the node on the right, as the
    methods of Python's numbers decline a numpy array, evaluation gives what
    the chunk's method gives on the number: the result of the expression with
    the two sides exchanged. *)
Theorem scalar_on_the_left_commutes getattr (self : node) (name : string) (c : Z)
    (index step : Z) (chunk result : value)
    (number_method chunk_method : list value -> res value) :
  name = "__add__" \/ name = "__mul__" ->
  _eval getattr self index step = Ok chunk ->
  getattr (VNum c) name = Some number_method ->
  number_method [chunk] = Ok VNotImplemented ->
  getattr chunk name = Some chunk_method ->
  chunk_method [VNum c] = Ok result ->
  _eval getattr
    (LayerOperation (LayerConstant (VNum c)) (Some (OpName name)) (Some self))
    index step
  = Ok result /\
  _eval getattr
    (LayerOperation self (Some (OpName name)) (Some (LayerConstant (VNum c))))
    index step
  = Ok result.
Proof.
  intros Hname Hself Hnum Hdeclined Hchunk Hresult.
  assert (Hc : commutative name = true) by (by destruct Hname as [-> | ->]).
  split; cbn [_eval].
  - cbn [bind]. rewrite Hnum, Hself. cbn [bind]. rewrite Hdeclined. cbn [bind].
    rewrite Hc. cbn [is_NotImplemented andb]. by rewrite Hchunk.
  - rewrite Hself. cbn [bind]. rewrite Hchunk. cbn [bind]. rewrite Hresult.
    cbn [bind]. rewrite Hc, andb_true_r.
    destruct result as [z | a |]; cbn [is_NotImplemented]; try reflexivity.
    by rewrite Hnum.
Qed.

(** ** More on shader evaluation *)

(** X12: a rhs whose evaluation raises [AttributeError] is taken for a missing
    rhs: the shader node then evaluates as the node without rhs, applying the
    operator to the lhs alone. *)
Theorem shader_drops_failing_rhs getattr (lhs_node rhs_node : node)
    (op : option operator) (index step : Z) (w : Window) :
  window lhs_node = Ok w ->
  _eval getattr rhs_node index step = Raise AttributeError ->
  _eval getattr (ShaderStyleOperation lhs_node op (Some rhs_node)) index step
  = _eval getattr (ShaderStyleOperation lhs_node op None) index step.
Proof.
  intros Hw Hr. simpl. by rewrite Hw, Hr.
Qed.

Lemma for_each_fails {A S : Type} (xs : list A) (body : S -> A -> res S)
    (s : S) (x : A) :
  In x xs ->
  (forall s', is_ok (body s' x) = false) ->
  is_ok (for_each xs body s) = false.
Proof.
  intros Hin Hfail. revert s.
  induction xs as [| a xs IH]; intros s; [destruct Hin |].
  simpl. destruct Hin as [-> | Hin].
  - specialize (Hfail s). by destruct (body s x).
  - destruct (body s a) as [s' | e]; simpl; [by apply IH | reflexivity].
Qed.

Lemma in_range (n : Z) (i : nat) : (i < Z.to_nat n)%nat -> In i (range n).
Proof. intros Hi. unfold range. apply in_seq. lia. Qed.

(** X13: the shader never returns a chunk when the array operand lacks one of the
    positions of the band: an operand with fewer rows than [step], or fewer
    columns than the window's [xsize], makes the evaluation raise. *)
Theorem shader_needs_every_position (op : option operator) (w : Window)
    (lhs : value) (rhs : option value) (step : Z) (grid : list (list Z))
    (yoffset xoffset : nat) :
  array_operand lhs rhs = Some grid ->
  (yoffset < Z.to_nat step)%nat ->
  (xoffset < Z.to_nat (xsize w))%nat ->
  (forall row, grid !! yoffset = Some row -> row !! xoffset = None) ->
  is_ok (shader_eval op (Ok w) lhs rhs step) = false.
Proof.
  intros Hgrid Hy Hx Hmiss.
  assert (Hat : operand_at (VArr grid) yoffset xoffset = Raise IndexError).
  { simpl. destruct (grid !! yoffset) as [row |] eqn:Hrow; [| reflexivity].
    by rewrite (Hmiss row eq_refl). }
  assert (Hcell : cell_value op lhs rhs yoffset xoffset = Raise IndexError).
  { unfold cell_value.
    destruct lhs as [a | a |]; simpl in Hgrid; [| | discriminate].
    - destruct rhs as [[b | b |] |]; try discriminate.
      injection Hgrid as ->.
      change (operand_at (VNum a) yoffset xoffset) with (Ok (VNum a)).
      cbn [bind]. by rewrite Hat.
    - injection Hgrid as ->. by rewrite Hat. }
  assert (Hfill : forall operand,
            is_ok (shader_fill op (Ok w) lhs rhs step operand) = false).
  { intros operand. unfold shader_fill. cbn [bind].
    assert (Hloop : is_ok
              (for_each (range step)
                 (fun res_y y =>
                    for_each (range (xsize w)) (shader_cell op lhs rhs operand y)
                      res_y)
                 (empty_like operand)) = false).
    { apply (for_each_fails _ _ _ yoffset); [by apply in_range |].
      intros res_y.
      apply (for_each_fails _ _ _ xoffset); [by apply in_range |].
      intros res_x. unfold shader_cell. by rewrite Hcell. }
    by destruct (for_each (range step) _ (empty_like operand)). }
  unfold shader_eval.
  destruct lhs as [a | a |]; simpl in Hgrid; [| | discriminate].
  - destruct rhs as [[b | b |] |]; try discriminate. simpl. apply Hfill.
  - simpl. apply Hfill.
Qed.





(** ** Expressions reduced in bands *)

(** X15: [numpy_apply] with a function that works cell by cell on a whole chunk:
    over a node whose bands are the rows of one grid, the node built has the
    same window and its bands are the rows of the grid with the function
    applied to every cell. With numpy's sum and the float addition exact up to
    a bound on the magnitude of the result over the window, its [sum] is the
    sum of the function over every cell of the window, for every positive
    band height. *)
Theorem numpy_apply_keeps_rows getattr (ystep bound : Z) (self : node) (w : Window)
    (row : Z -> list Z) (func : list value -> res value) (g : Z -> Z) :
  0 < ystep ->
  layer_like self = true ->
  window self = Ok w ->
  row_local getattr self row ->
  (forall a, func [VArr a] = Ok (VArr (map (map g) a))) ->
  exists n,
    numpy_apply self func ArgNone = Ok n /\
    window n = Ok w /\
    row_local getattr n (fun r => map g (row r)) /\
    (sums_exactly bound -> adds_exactly bound ->
     magnitude (rows_of (fun r => map g (row r)) 0 (ysize w)) <= bound ->
     Terminal.sum getattr ystep n
     = Ok (zsum (concat (rows_of (fun r => map g (row r)) 0 (ysize w))))).
Proof.
  intros Hstep Hlike Hw Hrow Hfunc.
  exists (LayerOperation self (Some (OpFunc func)) None).
  assert (Hn : row_local getattr (LayerOperation self (Some (OpFunc func)) None)
                 (fun r => map g (row r))).
  { intros index step Hi Hs. cbn [_eval]. rewrite Hrow by lia. cbn [bind].
    by rewrite Hfunc, rows_of_map. }
  assert (Hwn : window (LayerOperation self (Some (OpFunc func)) None) = Ok w)
    by (simpl; by rewrite Hw).
  split; [unfold numpy_apply; by rewrite Hlike |].
  split; [exact Hwn |]. split; [exact Hn |].
  intros Hsums Hadds Hbound.
  by apply (sum_is_global_sum getattr ystep Hstep w bound Hsums Hadds _ _ Hn).
Qed.

(** X16: an overloaded operator between two nodes whose bands are the rows of
    two grids, when the method numpy gives the lhs band combines it with the
    rhs band cell by cell, by a function [f] that is the operator in the
    bands' dtype: the expression has the window of its lhs and its bands are
    the rows of the two grids combined by [f]. With numpy's sum and the float
    addition exact up to a bound on the magnitude of the combined window, its
    [sum] is the sum of the combined cells over the window, for every
    positive band height. *)
Theorem binary_expression_sum getattr (ystep bound : Z) (name : string)
    (method : node -> pyarg -> res node) (f : Z -> Z -> Z)
    (lhs rhs : node) (w : Window) (row1 row2 : Z -> list Z) :
  0 < ystep ->
  In (name, method) overloads ->
  layer_like lhs = true ->
  window lhs = Ok w ->
  row_local getattr lhs row1 ->
  row_local getattr rhs row2 ->
  (forall index step,
     0 <= index -> 0 <= step ->
     exists operator,
       getattr (VArr (rows_of row1 index step)) name = Some operator /\
       operator [VArr (rows_of row2 index step)]
       = Ok (VArr (rows_of (fun r => zip_with f (row1 r) (row2 r)) index step))) ->
  exists n,
    method lhs (ArgNode rhs) = Ok n /\
    window n = Ok w /\
    row_local getattr n (fun r => zip_with f (row1 r) (row2 r)) /\
    (sums_exactly bound -> adds_exactly bound ->
     magnitude (rows_of (fun r => zip_with f (row1 r) (row2 r)) 0 (ysize w))
     <= bound ->
     Terminal.sum getattr ystep n
     = Ok (zsum (concat (rows_of (fun r => zip_with f (row1 r) (row2 r))
                           0 (ysize w))))).
Proof.
  intros Hstep Hin Hlike Hw H1 H2 Hmethod.
  destruct (overloads_are_mixin_ops name method Hin) as [Hname ->].
  exists (LayerOperation lhs (Some (OpName name)) (Some rhs)).
  assert (Hn : row_local getattr (LayerOperation lhs (Some (OpName name)) (Some rhs))
                 (fun r => zip_with f (row1 r) (row2 r))).
  { intros index step Hi Hs. cbn [_eval]. rewrite H1 by lia. cbn [bind].
    destruct (Hmethod index step Hi Hs) as (operator & Hop & Hres).
    rewrite Hop, H2 by lia. cbn [bind]. rewrite H2 by lia. cbn [bind].
    rewrite Hres. cbn [bind]. reflexivity. }
  assert (Hwn : window (LayerOperation lhs (Some (OpName name)) (Some rhs)) = Ok w)
    by (simpl; by rewrite Hw).
  split; [by rewrite mixin_op_builds |].
  split; [exact Hwn |]. split; [exact Hn |].
  intros Hsums Hadds Hbound.
  by apply (sum_is_global_sum getattr ystep Hstep w bound Hsums Hadds _ _ Hn).
Qed.

End General.

(** * Concrete runs *)

(** The runs below are on small integers, where numpy's sum, the float
    addition and the assignment into an array are all exact. *)
Section Runs.

#[local] Existing Instance exact_numpy.

Lemma exact_numpy_sums (bound : Z) : sums_exactly bound.
Proof. intros a _. reflexivity. Qed.

Lemma exact_numpy_adds (bound : Z) : adds_exactly bound.
Proof. intros x y _ _ _. reflexivity. Qed.

Lemma zip_rows (f : Z -> Z -> Z) (row1 row2 : Z -> list Z) (rs : list Z) :
  zip_with (zip_with f) (map row1 rs) (map row2 rs)
  = map (fun r => zip_with f (row1 r) (row2 r)) rs.
Proof. induction rs as [| r rs IH]; simpl; [reflexivity | by rewrite IH]. Qed.

(** On rows of the same width, the exact array method combines two bands
    cell by cell. *)
Lemma array_method_rows (f : Z -> Z -> Z) (row1 row2 : Z -> list Z)
    (index step : Z) :
  (forall r, length (row1 r) = length (row2 r)) ->
  array_method f (rows_of row1 index step) [VArr (rows_of row2 index step)]
  = Ok (VArr (rows_of (fun r => zip_with f (row1 r) (row2 r)) index step)).
Proof.
  intros Hlen. unfold array_method. rewrite decide_True.
  - unfold rows_of. by rewrite zip_rows.
  - unfold shape, rows_of. rewrite !map_map. apply map_ext. intros r. apply Hlen.
Qed.

(** C1 at a failing input: a one-column raster of 513 rows, every pixel 1,
    spans two bands of [YSTEP] = 512 rows. [min] and [max] add the extreme of
    each band to the running total as [sum] does, and return 2 where the
    minimum and the maximum over the window are 1; on a three-row ramp the
    result of [min] changes with the band height. *)
Theorem min_max_add_band_extremes :
  Terminal.min py_getattr YSTEP (RasterLayer (constant_raster 513 1 1)) = Ok 2 /\
  Terminal.max py_getattr YSTEP (RasterLayer (constant_raster 513 1 1)) = Ok 2 /\
  (do chunk <- _eval py_getattr (RasterLayer (constant_raster 513 1 1)) 0 513;
   np_min chunk) = Ok 1 /\
  (do chunk <- _eval py_getattr (RasterLayer (constant_raster 513 1 1)) 0 513;
   np_max chunk) = Ok 1 /\
  Terminal.min py_getattr 1 (RasterLayer (ramp_raster 3 2)) = Ok 30 /\
  Terminal.min py_getattr 2 (RasterLayer (ramp_raster 3 2)) = Ok 20 /\
  Terminal.min py_getattr 3 (RasterLayer (ramp_raster 3 2)) = Ok 0.
Proof. vm_compute. repeat split. Qed.

(** C2 at a failing input: [layer.numpy_apply(lambda chunk: 1.0)] over a
    window of 2 by 2 pixels. Every band evaluates to the bare scalar 1;
    [save] spreads it over the band before writing and summing and returns
    4, an independent [sum] adds the scalar once for the band and returns
    1. *)
Theorem save_sum_differs_on_scalar_bands :
  Terminal.sum py_getattr YSTEP (always_one (constant_raster 2 2 5)) = Ok 1 /\
  Terminal.save py_getattr YSTEP (always_one (constant_raster 2 2 5))
    (Some (writable 2 2)) true []
  = (Ok (Some 4), [([[1; 1]; [1; 1]], 0, 0)]).
Proof. vm_compute. split; reflexivity. Qed.

(** The claim C3 makes of the other operators fails on
    [layer.numpy_apply(lambda chunk: 0.0) - layer]: the float's [__sub__]
    declines the array, subtraction is not retried, and [_eval] returns
    [NotImplemented] where the claim has an error raised. *)
Lemma declined_subtraction_is_returned :
  commutative "__sub__" = false /\
  option_map (fun operator => operator [VArr [[0; 1]]]) (py_getattr (VNum 0) "__sub__")
  = Some (Ok VNotImplemented) /\
  _eval py_getattr (zero_minus (ramp_raster 1 2)) 0 1 = Ok VNotImplemented.
Proof. vm_compute. repeat split. Qed.

Lemma window_of_composed_node_witness :
  window (LayerOperation (LayerConstant (VNum 1)) (Some (OpName "__add__"))
            (Some (RasterLayer (ramp_raster 3 2))))
  = Ok (mkWindow 0 0 2 3) /\
  Terminal.sum py_getattr YSTEP
    (LayerOperation (LayerConstant (VNum 1)) (Some (OpName "__add__"))
       (Some (RasterLayer windowless)))
  = Raise AttributeError.
Proof.
  split.
  - apply (window_of_composed_node py_getattr YSTEP
             (LayerOperation (LayerConstant (VNum 1)) (Some (OpName "__add__"))
                (Some (RasterLayer (ramp_raster 3 2))))
             (LayerConstant (VNum 1))
             (Some (RasterLayer (ramp_raster 3 2))) eq_refl).
    reflexivity.
  - apply (window_of_composed_node py_getattr YSTEP
             (LayerOperation (LayerConstant (VNum 1)) (Some (OpName "__add__"))
                (Some (RasterLayer windowless)))
             (LayerConstant (VNum 1))
             (Some (RasterLayer windowless)) eq_refl).
    + reflexivity.
    + intros r Hr. injection Hr as <-. reflexivity.
Defined.

Lemma empty_window_reductions_witness :
  Terminal.sum py_getattr YSTEP (RasterLayer (constant_raster 0 3 7)) = Ok 0 /\
  Terminal.min py_getattr YSTEP (RasterLayer (constant_raster 0 3 7)) = Ok 0 /\
  Terminal.max py_getattr YSTEP (RasterLayer (constant_raster 0 3 7)) = Ok 0.
Proof.
  apply (empty_window_reductions py_getattr YSTEP
           (RasterLayer (constant_raster 0 3 7)) (mkWindow 0 0 3 0));
    reflexivity.
Defined.

Lemma save_fails_before_writing_witness :
  Terminal.save py_getattr YSTEP (RasterLayer (ramp_raster 3 2))
    (Some (mkDestination false (Some (mkWindow 0 0 2 3)))) true [([[9]], 0, 0)]
  = (Raise ValueError, [([[9]], 0, 0)]) /\
  Terminal.save py_getattr YSTEP (RasterLayer (ramp_raster 3 2))
    (Some (writable 3 5)) true [([[9]], 0, 0)]
  = (Raise ValueError, [([[9]], 0, 0)]).
Proof.
  split.
  - apply (save_fails_before_writing py_getattr YSTEP). reflexivity.
  - apply (proj2 (save_fails_before_writing py_getattr YSTEP
                    (RasterLayer (ramp_raster 3 2)) (writable 3 5) true
                    [([[9]], 0, 0)])
             (mkWindow 0 0 2 3) (mkWindow 0 0 5 3));
      [reflexivity | reflexivity | left; simpl; lia].
Defined.

Lemma operators_build_nodes_witness :
  __pow__ (RasterLayer (ramp_raster 3 2)) (ArgNdarray [] [2])
  = Ok (LayerOperation (RasterLayer (ramp_raster 3 2)) (Some (OpName "__pow__"))
          (Some (LayerConstant (VNum 2)))) /\
  __pow__ (RasterLayer (ramp_raster 3 2)) (ArgNdarray [2%nat] [2; 3])
  = Raise ValueError.
Proof.
  assert (Hin : In ("__pow__", __pow__) overloads)
    by (simpl; right; right; right; right; left; reflexivity).
  split;
    apply (operators_build_nodes "__pow__" __pow__ (RasterLayer (ramp_raster 3 2))
             Hin eq_refl).
Defined.

Lemma comparisons_build_nodes_witness :
  __eq__ (RasterLayer (ramp_raster 3 2)) (ArgNode (RasterLayer (ramp_raster 3 2)))
  = Ok (LayerOperation (RasterLayer (ramp_raster 3 2)) (Some (OpName "__eq__"))
          (Some (RasterLayer (ramp_raster 3 2)))).
Proof.
  apply (comparisons_build_nodes (RasterLayer (ramp_raster 3 2))
           (RasterLayer (ramp_raster 3 2)) eq_refl eq_refl).
Defined.

Lemma declined_dispatch_witness :
  _eval py_getattr
    (LayerOperation (LayerConstant (VNum 5)) (Some (OpName "__add__"))
       (Some (RasterLayer (ramp_raster 1 2)))) 0 1
  = Ok (VArr [[5; 6]]) /\
  _eval py_getattr
    (LayerOperation (LayerConstant (VNum 5)) (Some (OpName "__sub__"))
       (Some (RasterLayer (ramp_raster 1 2)))) 0 1
  = Ok VNotImplemented.
Proof.
  split.
  - apply (declined_dispatch py_getattr (LayerConstant (VNum 5))
             (RasterLayer (ramp_raster 1 2)) "__add__" 0 1
             (VNum 5) (VArr [[0; 1]]) (scalar_method Z.add 5)
             eq_refl eq_refl eq_refl eq_refl).
    left. reflexivity.
  - apply (declined_dispatch py_getattr (LayerConstant (VNum 5))
             (RasterLayer (ramp_raster 1 2)) "__sub__" 0 1
             (VNum 5) (VArr [[0; 1]]) (scalar_method Z.sub 5)
             eq_refl eq_refl eq_refl eq_refl);
      discriminate.
Defined.


Lemma group_construction_fails_witness :
  GroupLayer_init micro_units
    [ mkScaledLayer (constant_raster 100 100 1) (mkPixelScale 0.2 (-0.2));
      mkScaledLayer (constant_raster 67 67 1) (mkPixelScale 0.3 (-0.3)) ]
  = Raise ValueError.
Proof.
  apply (proj2 (group_construction_fails micro_units) _
           (mkScaledLayer (constant_raster 100 100 1) (mkPixelScale 0.2 (-0.2)))
           (mkScaledLayer (constant_raster 67 67 1) (mkPixelScale 0.3 (-0.3))));
    [left; reflexivity | right; left; reflexivity | vm_compute; discriminate].
Defined.

Lemma bands_tile_the_window_witness :
  concat (map (fun yoffset =>
                 map (fun r => yoffset + r)
                     (zrange (Terminal.band_height 2 (mkWindow 0 0 3 5) yoffset)))
              (range3 0 5 2))
  = [0; 1; 2; 3; 4].
Proof.
  apply (bands_tile_the_window 2 eq_refl (mkWindow 0 0 3 5)).
Defined.

Lemma single_band_reductions_witness :
  Terminal.min py_getattr YSTEP (RasterLayer (ramp_raster 3 2)) = Ok 0 /\
  Terminal.max py_getattr YSTEP (RasterLayer (ramp_raster 3 2)) = Ok 21.
Proof.
  destruct (single_band_reductions py_getattr YSTEP (RasterLayer (ramp_raster 3 2))
              (mkWindow 0 0 2 3) eq_refl) as (_ & Hmin & Hmax).
  - vm_compute. split; discriminate.
  - split; [rewrite Hmin | rewrite Hmax]; reflexivity.
Defined.

Lemma sum_totals_the_window_witness :
  Terminal.sum py_getattr 2 (RasterLayer (ramp_raster 3 2)) = Ok 63 /\
  Terminal.sum py_getattr YSTEP (RasterLayer (ramp_raster 3 2))
  = Terminal.sum py_getattr 2 (RasterLayer (ramp_raster 3 2)).
Proof.
  apply (sum_totals_the_window py_getattr 2 YSTEP 63 (RasterLayer (ramp_raster 3 2))
           (mkWindow 0 0 2 3) (layer_row (ramp_raster 3 2) (mkWindow 0 0 2 3))
           eq_refl eq_refl (exact_numpy_sums 63) (exact_numpy_adds 63) eq_refl
           (fun index step _ _ => eq_refl)).
  vm_compute. discriminate.
Defined.

Lemma save_writes_the_bands_witness :
  Terminal.save py_getattr 2 (RasterLayer (ramp_raster 3 2))
    (Some (mkDestination true (Some (mkWindow 5 7 2 3)))) true []
  = (Ok (Some 63), [([[0; 1]; [10; 11]], 5, 7); ([[20; 21]], 5, 9)]).
Proof.
  apply (save_writes_the_bands py_getattr 2 eq_refl (RasterLayer (ramp_raster 3 2))
           (mkWindow 0 0 2 3) (mkWindow 5 7 2 3)
           (layer_row (ramp_raster 3 2) (mkWindow 0 0 2 3))
           (fun index step _ _ => eq_refl)
           (mkDestination true (Some (mkWindow 5 7 2 3))) true [] 63
           eq_refl eq_refl eq_refl eq_refl eq_refl).
  intros _. split; [apply exact_numpy_sums |]. split; [apply exact_numpy_adds |].
  vm_compute. discriminate.
Defined.

(** A save that fails in its second band keeps the first band's write. *)
Lemma save_only_appends_witness :
  snd (Terminal.save py_getattr 1
         (LayerOperation (RasterLayer (ramp_raster 2 2)) (Some (OpFunc below_ten)) None)
         (Some (writable 2 2)) false [([[9]], 0, 0)])
  = [([[9]], 0, 0); ([[0; 1]], 0, 0)] /\
  is_ok (fst (Terminal.save py_getattr 1
                (LayerOperation (RasterLayer (ramp_raster 2 2))
                   (Some (OpFunc below_ten)) None)
                (Some (writable 2 2)) false [([[9]], 0, 0)]))
  = false.
Proof.
  apply (proj2 (save_only_appends py_getattr 1
                  (LayerOperation (RasterLayer (ramp_raster 2 2))
                     (Some (OpFunc below_ten)) None)
                  (Some (writable 2 2)) false [([[9]], 0, 0)])
           (writable 2 2) (mkWindow 0 0 2 2) (mkWindow 0 0 2 2)
           eq_refl eq_refl eq_refl eq_refl eq_refl eq_refl).
Defined.

Lemma save_spreads_scalar_bands_witness :
  Terminal.save py_getattr 2 (always_one (ramp_raster 3 2))
    (Some (writable 3 2)) true []
  = (Ok (Some 6), [([[1; 1]; [1; 1]], 0, 0); ([[1; 1]], 0, 2)]).
Proof.
  apply (save_spreads_scalar_bands py_getattr 2 eq_refl (always_one (ramp_raster 3 2))
           (mkWindow 0 0 2 3) (mkWindow 0 0 2 3) 1
           (fun yoffset step => eq_refl) ltac:(simpl; lia)
           (writable 3 2) true [] 6
           eq_refl eq_refl eq_refl eq_refl eq_refl ltac:(simpl; lia)).
  intros _. split; [apply exact_numpy_sums |]. split; [apply exact_numpy_adds |].
  simpl. lia.
Defined.

Lemma save_sum_agrees_on_arrays_witness :
  fst (Terminal.save py_getattr 2 (RasterLayer (ramp_raster 3 2))
         (Some (writable 3 2)) true [])
  = Ok (Some 63).
Proof.
  rewrite (save_sum_agrees_on_arrays py_getattr 2 (RasterLayer (ramp_raster 3 2))
             (mkWindow 0 0 2 3) (mkWindow 0 0 2 3) (writable 3 2) []
             eq_refl eq_refl eq_refl eq_refl eq_refl); [reflexivity |].
  intros yoffset _. eexists. reflexivity.
Defined.

Lemma scalar_on_the_left_commutes_witness :
  _eval py_getattr
    (LayerOperation (LayerConstant (VNum 3)) (Some (OpName "__mul__"))
       (Some (RasterLayer (ramp_raster 2 2)))) 0 2
  = Ok (VArr [[0; 3]; [30; 33]]) /\
  _eval py_getattr
    (LayerOperation (RasterLayer (ramp_raster 2 2)) (Some (OpName "__mul__"))
       (Some (LayerConstant (VNum 3)))) 0 2
  = Ok (VArr [[0; 3]; [30; 33]]).
Proof.
  apply (scalar_on_the_left_commutes py_getattr (RasterLayer (ramp_raster 2 2))
           "__mul__" 3 0 2 (VArr [[0; 1]; [10; 11]]) (VArr [[0; 3]; [30; 33]])
           (scalar_method Z.mul 3) (array_method Z.mul [[0; 1]; [10; 11]])
           (or_intror eq_refl) eq_refl eq_refl eq_refl eq_refl eq_refl).
Defined.

Lemma shader_drops_failing_rhs_witness :
  _eval py_getattr
    (ShaderStyleOperation (RasterLayer (ramp_raster 1 2))
       (Some (OpFunc double_or_times))
       (Some (LayerOperation (zero_minus (ramp_raster 1 2)) (Some (OpName "__add__"))
                (Some (LayerConstant (VNum 1))))))
    0 1
  = _eval py_getattr
      (ShaderStyleOperation (RasterLayer (ramp_raster 1 2))
         (Some (OpFunc double_or_times)) None)
      0 1 /\
  _eval py_getattr
    (ShaderStyleOperation (RasterLayer (ramp_raster 1 2))
       (Some (OpFunc double_or_times)) None)
    0 1
  = Ok (VArr [[0; 2]]).
Proof.
  split; [| reflexivity].
  apply (shader_drops_failing_rhs py_getattr (RasterLayer (ramp_raster 1 2)) _ _ 0 1
           (mkWindow 0 0 2 1)); reflexivity.
Defined.

(** A layer without window is read one column wide; next to a rhs two
    columns wide the shader cannot fill the second column. *)
Lemma shader_needs_every_position_witness :
  is_ok (_eval py_getattr
           (ShaderStyleOperation (RasterLayer windowless) (Some (OpFunc double_or_times))
              (Some (RasterLayer (ramp_raster 1 2))))
           0 1)
  = false.
Proof.
  apply (shader_needs_every_position (Some (OpFunc double_or_times))
           (mkWindow 0 0 2 1) (VArr [[0]]) (Some (VArr [[0; 1]])) 1 [[0]] 0%nat 1%nat
           eq_refl); [simpl; lia | simpl; lia |].
  intros row Hrow. injection Hrow as <-. reflexivity.
Defined.


Lemma numpy_apply_keeps_rows_witness :
  exists n,
    numpy_apply (RasterLayer (ramp_raster 3 2))
      (fun args => match args with
                   | [VArr a] => Ok (VArr (map (map (fun c => c + 1)) a))
                   | _ => Raise TypeError
                   end)
      ArgNone = Ok n /\
    Terminal.sum py_getattr 2 n = Ok 69.
Proof.
  destruct (numpy_apply_keeps_rows py_getattr 2 69 (RasterLayer (ramp_raster 3 2))
              (mkWindow 0 0 2 3) (layer_row (ramp_raster 3 2) (mkWindow 0 0 2 3))
              (fun args => match args with
                           | [VArr a] => Ok (VArr (map (map (fun c => c + 1)) a))
                           | _ => Raise TypeError
                           end)
              (fun c => c + 1) eq_refl eq_refl eq_refl
              (fun index step _ _ => eq_refl) (fun a => eq_refl))
    as (n & Hn & _ & _ & Hsum).
  exists n. split; [exact Hn |].
  rewrite Hsum;
    [reflexivity | apply exact_numpy_sums | apply exact_numpy_adds
    | vm_compute; discriminate].
Defined.

Lemma binary_expression_sum_witness :
  exists n,
    __sub__ (RasterLayer (ramp_raster 3 2)) (ArgNode (RasterLayer (constant_raster 3 2 1)))
    = Ok n /\
    Terminal.sum py_getattr 2 n = Ok 57.
Proof.
  destruct (binary_expression_sum py_getattr 2 59 "__sub__" __sub__ Z.sub
              (RasterLayer (ramp_raster 3 2)) (RasterLayer (constant_raster 3 2 1))
              (mkWindow 0 0 2 3)
              (layer_row (ramp_raster 3 2) (mkWindow 0 0 2 3))
              (layer_row (constant_raster 3 2 1) (mkWindow 0 0 2 3))
              eq_refl (or_intror (or_introl eq_refl)) eq_refl eq_refl
              (fun index step _ _ => eq_refl) (fun index step _ _ => eq_refl)
              ltac:(intros; eexists; split;
                      [reflexivity | by apply array_method_rows]))
    as (n & Hn & _ & _ & Hsum).
  exists n. split; [exact Hn |].
  rewrite Hsum;
    [reflexivity | apply exact_numpy_sums | apply exact_numpy_adds
    | vm_compute; discriminate].
Defined.

End Runs.
